(** * Verification of the statistics pass of [chess_analysis.py]

    Shallow embedding of [ChessAnalizadorPro.analizar_partidas] (the single
    pass over the downloaded games that fills [self.stats]) and of the guard
    of [generar_reporte].

    - A Python [Counter] / [defaultdict(int)] is a [gmap string Z]; the
      statement [c[k] += 1] is [incr k c].
    - The [self.stats] dictionary is the record [stats]; one [set_<key>]
      function per key writes that key.
    - [chess.pgn.read_game] is library code: it is the section variable
      [read_game], whose result is either an exception, [None] or a game
      given by the [str] of its main-line moves.
    - [datetime.datetime.fromtimestamp(t).strftime("%A")] depends on the
      local time zone and locale: it is the section variable [dia_semana]. *)

From Stdlib Require Import ZArith String Ascii List Bool Lia.
From stdpp Require Import gmap strings list fin_maps.
Import ListNotations.
Open Scope Z_scope.

(** ** Input data: the JSON game records of the chess.com API *)

(** [game["white"]] / [game["black"]]: [rating] is read with
    [.get("rating", 0)], so it may be absent. *)
Record jugador := mkJugador {
  username : string;
  rating : option Z;
  result : string
}.

(** A game: [time_control], [end_time] and [pgn] may be absent. *)
Record partida := mkPartida {
  white : jugador;
  black : jugador;
  time_control : option string;
  end_time : option Z;
  pgn : option string
}.

(** Outcome of [chess.pgn.read_game(io.StringIO(pgn))] followed by the
    enumeration of [mainline_moves()]: it raises, returns [None], or
    returns a game whose main line is given by [str(move)] of each move. *)
Inductive lectura :=
| LeeExcepcion
| LeeNinguna
| LeePartida (jugadas : list string).

(** The value [{'ganadas': 0, 'total': 0}] of [aperturas_con_resultados]. *)
Record apertura_stats := mkAperturaStats {
  ap_ganadas : Z;
  ap_total : Z
}.

Definition apertura_vacia : apertura_stats := mkAperturaStats 0 0.

Record stats := mkStats {
  ganadas : Z;
  perdidas : Z;
  tablas : Z;
  blancas_g : Z;
  blancas_partidas : Z;
  negras_g : Z;
  negras_partidas : Z;
  total_jugadas : Z;
  rivales : list string;
  ratings_rivales : list Z;
  time_controls : gmap string Z;
  tablas_por_tipo : gmap string Z;
  racha_actual : Z;
  racha_max_g : Z;
  racha_max_p : Z;
  partida_corta : string * Z;
  partida_larga : string * Z;
  mejor_victoria : string * Z;
  peor_derrota : string * Z;
  aperturas : gmap string Z;
  aperturas_con_resultados : gmap string apertura_stats;
  partidas_analizadas : Z;
  juegos_por_dia : gmap string Z;
  resultados_dia : gmap string (gmap string Z)
}.

Definition set_ganadas (v : Z) (s : stats) : stats :=
  mkStats v (perdidas s) (tablas s) (blancas_g s) (blancas_partidas s)
    (negras_g s) (negras_partidas s) (total_jugadas s) (rivales s)
    (ratings_rivales s) (time_controls s) (tablas_por_tipo s)
    (racha_actual s) (racha_max_g s) (racha_max_p s) (partida_corta s)
    (partida_larga s) (mejor_victoria s) (peor_derrota s) (aperturas s)
    (aperturas_con_resultados s) (partidas_analizadas s) (juegos_por_dia s)
    (resultados_dia s).

Definition set_perdidas (v : Z) (s : stats) : stats :=
  mkStats (ganadas s) v (tablas s) (blancas_g s) (blancas_partidas s)
    (negras_g s) (negras_partidas s) (total_jugadas s) (rivales s)
    (ratings_rivales s) (time_controls s) (tablas_por_tipo s)
    (racha_actual s) (racha_max_g s) (racha_max_p s) (partida_corta s)
    (partida_larga s) (mejor_victoria s) (peor_derrota s) (aperturas s)
    (aperturas_con_resultados s) (partidas_analizadas s) (juegos_por_dia s)
    (resultados_dia s).

Definition set_tablas (v : Z) (s : stats) : stats :=
  mkStats (ganadas s) (perdidas s) v (blancas_g s) (blancas_partidas s)
    (negras_g s) (negras_partidas s) (total_jugadas s) (rivales s)
    (ratings_rivales s) (time_controls s) (tablas_por_tipo s)
    (racha_actual s) (racha_max_g s) (racha_max_p s) (partida_corta s)
    (partida_larga s) (mejor_victoria s) (peor_derrota s) (aperturas s)
    (aperturas_con_resultados s) (partidas_analizadas s) (juegos_por_dia s)
    (resultados_dia s).

Definition set_blancas_g (v : Z) (s : stats) : stats :=
  mkStats (ganadas s) (perdidas s) (tablas s) v (blancas_partidas s)
    (negras_g s) (negras_partidas s) (total_jugadas s) (rivales s)
    (ratings_rivales s) (time_controls s) (tablas_por_tipo s)
    (racha_actual s) (racha_max_g s) (racha_max_p s) (partida_corta s)
    (partida_larga s) (mejor_victoria s) (peor_derrota s) (aperturas s)
    (aperturas_con_resultados s) (partidas_analizadas s) (juegos_por_dia s)
    (resultados_dia s).

Definition set_blancas_partidas (v : Z) (s : stats) : stats :=
  mkStats (ganadas s) (perdidas s) (tablas s) (blancas_g s) v (negras_g s)
    (negras_partidas s) (total_jugadas s) (rivales s) (ratings_rivales s)
    (time_controls s) (tablas_por_tipo s) (racha_actual s) (racha_max_g s)
    (racha_max_p s) (partida_corta s) (partida_larga s) (mejor_victoria s)
    (peor_derrota s) (aperturas s) (aperturas_con_resultados s)
    (partidas_analizadas s) (juegos_por_dia s) (resultados_dia s).

Definition set_negras_g (v : Z) (s : stats) : stats :=
  mkStats (ganadas s) (perdidas s) (tablas s) (blancas_g s)
    (blancas_partidas s) v (negras_partidas s) (total_jugadas s) (rivales s)
    (ratings_rivales s) (time_controls s) (tablas_por_tipo s)
    (racha_actual s) (racha_max_g s) (racha_max_p s) (partida_corta s)
    (partida_larga s) (mejor_victoria s) (peor_derrota s) (aperturas s)
    (aperturas_con_resultados s) (partidas_analizadas s) (juegos_por_dia s)
    (resultados_dia s).

Definition set_negras_partidas (v : Z) (s : stats) : stats :=
  mkStats (ganadas s) (perdidas s) (tablas s) (blancas_g s)
    (blancas_partidas s) (negras_g s) v (total_jugadas s) (rivales s)
    (ratings_rivales s) (time_controls s) (tablas_por_tipo s)
    (racha_actual s) (racha_max_g s) (racha_max_p s) (partida_corta s)
    (partida_larga s) (mejor_victoria s) (peor_derrota s) (aperturas s)
    (aperturas_con_resultados s) (partidas_analizadas s) (juegos_por_dia s)
    (resultados_dia s).

Definition set_total_jugadas (v : Z) (s : stats) : stats :=
  mkStats (ganadas s) (perdidas s) (tablas s) (blancas_g s)
    (blancas_partidas s) (negras_g s) (negras_partidas s) v (rivales s)
    (ratings_rivales s) (time_controls s) (tablas_por_tipo s)
    (racha_actual s) (racha_max_g s) (racha_max_p s) (partida_corta s)
    (partida_larga s) (mejor_victoria s) (peor_derrota s) (aperturas s)
    (aperturas_con_resultados s) (partidas_analizadas s) (juegos_por_dia s)
    (resultados_dia s).

Definition set_rivales (v : list string) (s : stats) : stats :=
  mkStats (ganadas s) (perdidas s) (tablas s) (blancas_g s)
    (blancas_partidas s) (negras_g s) (negras_partidas s) (total_jugadas s)
    v (ratings_rivales s) (time_controls s) (tablas_por_tipo s)
    (racha_actual s) (racha_max_g s) (racha_max_p s) (partida_corta s)
    (partida_larga s) (mejor_victoria s) (peor_derrota s) (aperturas s)
    (aperturas_con_resultados s) (partidas_analizadas s) (juegos_por_dia s)
    (resultados_dia s).

Definition set_ratings_rivales (v : list Z) (s : stats) : stats :=
  mkStats (ganadas s) (perdidas s) (tablas s) (blancas_g s)
    (blancas_partidas s) (negras_g s) (negras_partidas s) (total_jugadas s)
    (rivales s) v (time_controls s) (tablas_por_tipo s) (racha_actual s)
    (racha_max_g s) (racha_max_p s) (partida_corta s) (partida_larga s)
    (mejor_victoria s) (peor_derrota s) (aperturas s)
    (aperturas_con_resultados s) (partidas_analizadas s) (juegos_por_dia s)
    (resultados_dia s).

Definition set_time_controls (v : gmap string Z) (s : stats) : stats :=
  mkStats (ganadas s) (perdidas s) (tablas s) (blancas_g s)
    (blancas_partidas s) (negras_g s) (negras_partidas s) (total_jugadas s)
    (rivales s) (ratings_rivales s) v (tablas_por_tipo s) (racha_actual s)
    (racha_max_g s) (racha_max_p s) (partida_corta s) (partida_larga s)
    (mejor_victoria s) (peor_derrota s) (aperturas s)
    (aperturas_con_resultados s) (partidas_analizadas s) (juegos_por_dia s)
    (resultados_dia s).

Definition set_tablas_por_tipo (v : gmap string Z) (s : stats) : stats :=
  mkStats (ganadas s) (perdidas s) (tablas s) (blancas_g s)
    (blancas_partidas s) (negras_g s) (negras_partidas s) (total_jugadas s)
    (rivales s) (ratings_rivales s) (time_controls s) v (racha_actual s)
    (racha_max_g s) (racha_max_p s) (partida_corta s) (partida_larga s)
    (mejor_victoria s) (peor_derrota s) (aperturas s)
    (aperturas_con_resultados s) (partidas_analizadas s) (juegos_por_dia s)
    (resultados_dia s).

Definition set_racha_actual (v : Z) (s : stats) : stats :=
  mkStats (ganadas s) (perdidas s) (tablas s) (blancas_g s)
    (blancas_partidas s) (negras_g s) (negras_partidas s) (total_jugadas s)
    (rivales s) (ratings_rivales s) (time_controls s) (tablas_por_tipo s) v
    (racha_max_g s) (racha_max_p s) (partida_corta s) (partida_larga s)
    (mejor_victoria s) (peor_derrota s) (aperturas s)
    (aperturas_con_resultados s) (partidas_analizadas s) (juegos_por_dia s)
    (resultados_dia s).

Definition set_racha_max_g (v : Z) (s : stats) : stats :=
  mkStats (ganadas s) (perdidas s) (tablas s) (blancas_g s)
    (blancas_partidas s) (negras_g s) (negras_partidas s) (total_jugadas s)
    (rivales s) (ratings_rivales s) (time_controls s) (tablas_por_tipo s)
    (racha_actual s) v (racha_max_p s) (partida_corta s) (partida_larga s)
    (mejor_victoria s) (peor_derrota s) (aperturas s)
    (aperturas_con_resultados s) (partidas_analizadas s) (juegos_por_dia s)
    (resultados_dia s).

Definition set_racha_max_p (v : Z) (s : stats) : stats :=
  mkStats (ganadas s) (perdidas s) (tablas s) (blancas_g s)
    (blancas_partidas s) (negras_g s) (negras_partidas s) (total_jugadas s)
    (rivales s) (ratings_rivales s) (time_controls s) (tablas_por_tipo s)
    (racha_actual s) (racha_max_g s) v (partida_corta s) (partida_larga s)
    (mejor_victoria s) (peor_derrota s) (aperturas s)
    (aperturas_con_resultados s) (partidas_analizadas s) (juegos_por_dia s)
    (resultados_dia s).

Definition set_partida_corta (v : string * Z) (s : stats) : stats :=
  mkStats (ganadas s) (perdidas s) (tablas s) (blancas_g s)
    (blancas_partidas s) (negras_g s) (negras_partidas s) (total_jugadas s)
    (rivales s) (ratings_rivales s) (time_controls s) (tablas_por_tipo s)
    (racha_actual s) (racha_max_g s) (racha_max_p s) v (partida_larga s)
    (mejor_victoria s) (peor_derrota s) (aperturas s)
    (aperturas_con_resultados s) (partidas_analizadas s) (juegos_por_dia s)
    (resultados_dia s).

Definition set_partida_larga (v : string * Z) (s : stats) : stats :=
  mkStats (ganadas s) (perdidas s) (tablas s) (blancas_g s)
    (blancas_partidas s) (negras_g s) (negras_partidas s) (total_jugadas s)
    (rivales s) (ratings_rivales s) (time_controls s) (tablas_por_tipo s)
    (racha_actual s) (racha_max_g s) (racha_max_p s) (partida_corta s) v
    (mejor_victoria s) (peor_derrota s) (aperturas s)
    (aperturas_con_resultados s) (partidas_analizadas s) (juegos_por_dia s)
    (resultados_dia s).

Definition set_mejor_victoria (v : string * Z) (s : stats) : stats :=
  mkStats (ganadas s) (perdidas s) (tablas s) (blancas_g s)
    (blancas_partidas s) (negras_g s) (negras_partidas s) (total_jugadas s)
    (rivales s) (ratings_rivales s) (time_controls s) (tablas_por_tipo s)
    (racha_actual s) (racha_max_g s) (racha_max_p s) (partida_corta s)
    (partida_larga s) v (peor_derrota s) (aperturas s)
    (aperturas_con_resultados s) (partidas_analizadas s) (juegos_por_dia s)
    (resultados_dia s).

Definition set_peor_derrota (v : string * Z) (s : stats) : stats :=
  mkStats (ganadas s) (perdidas s) (tablas s) (blancas_g s)
    (blancas_partidas s) (negras_g s) (negras_partidas s) (total_jugadas s)
    (rivales s) (ratings_rivales s) (time_controls s) (tablas_por_tipo s)
    (racha_actual s) (racha_max_g s) (racha_max_p s) (partida_corta s)
    (partida_larga s) (mejor_victoria s) v (aperturas s)
    (aperturas_con_resultados s) (partidas_analizadas s) (juegos_por_dia s)
    (resultados_dia s).

Definition set_aperturas (v : gmap string Z) (s : stats) : stats :=
  mkStats (ganadas s) (perdidas s) (tablas s) (blancas_g s)
    (blancas_partidas s) (negras_g s) (negras_partidas s) (total_jugadas s)
    (rivales s) (ratings_rivales s) (time_controls s) (tablas_por_tipo s)
    (racha_actual s) (racha_max_g s) (racha_max_p s) (partida_corta s)
    (partida_larga s) (mejor_victoria s) (peor_derrota s) v
    (aperturas_con_resultados s) (partidas_analizadas s) (juegos_por_dia s)
    (resultados_dia s).

Definition set_aperturas_con_resultados (v : gmap string apertura_stats) (s : stats) : stats :=
  mkStats (ganadas s) (perdidas s) (tablas s) (blancas_g s)
    (blancas_partidas s) (negras_g s) (negras_partidas s) (total_jugadas s)
    (rivales s) (ratings_rivales s) (time_controls s) (tablas_por_tipo s)
    (racha_actual s) (racha_max_g s) (racha_max_p s) (partida_corta s)
    (partida_larga s) (mejor_victoria s) (peor_derrota s) (aperturas s) v
    (partidas_analizadas s) (juegos_por_dia s) (resultados_dia s).

Definition set_partidas_analizadas (v : Z) (s : stats) : stats :=
  mkStats (ganadas s) (perdidas s) (tablas s) (blancas_g s)
    (blancas_partidas s) (negras_g s) (negras_partidas s) (total_jugadas s)
    (rivales s) (ratings_rivales s) (time_controls s) (tablas_por_tipo s)
    (racha_actual s) (racha_max_g s) (racha_max_p s) (partida_corta s)
    (partida_larga s) (mejor_victoria s) (peor_derrota s) (aperturas s)
    (aperturas_con_resultados s) v (juegos_por_dia s) (resultados_dia s).

Definition set_juegos_por_dia (v : gmap string Z) (s : stats) : stats :=
  mkStats (ganadas s) (perdidas s) (tablas s) (blancas_g s)
    (blancas_partidas s) (negras_g s) (negras_partidas s) (total_jugadas s)
    (rivales s) (ratings_rivales s) (time_controls s) (tablas_por_tipo s)
    (racha_actual s) (racha_max_g s) (racha_max_p s) (partida_corta s)
    (partida_larga s) (mejor_victoria s) (peor_derrota s) (aperturas s)
    (aperturas_con_resultados s) (partidas_analizadas s) v
    (resultados_dia s).

Definition set_resultados_dia (v : gmap string (gmap string Z)) (s : stats) : stats :=
  mkStats (ganadas s) (perdidas s) (tablas s) (blancas_g s)
    (blancas_partidas s) (negras_g s) (negras_partidas s) (total_jugadas s)
    (rivales s) (ratings_rivales s) (time_controls s) (tablas_por_tipo s)
    (racha_actual s) (racha_max_g s) (racha_max_p s) (partida_corta s)
    (partida_larga s) (mejor_victoria s) (peor_derrota s) (aperturas s)
    (aperturas_con_resultados s) (partidas_analizadas s) (juegos_por_dia s)
    v.

(** The dictionary built at the start of [analizar_partidas] (lines 61-80). *)
Definition stats_iniciales : stats :=
  mkStats 0 0 0 0 0 0 0 0 [] [] ∅ ∅ 0 0 0
    (""%string, 9999) (""%string, 0) (""%string, 0) (""%string, 9999)
    ∅ ∅ 0 ∅ ∅.

(** [c[k] += 1] on a [Counter] or a [defaultdict(int)]. *)
Definition incr (k : string) (c : gmap string Z) : gmap string Z :=
  <[k := default 0 (c !! k) + 1]> c.

(** [str.lower()] on the ASCII letters (chess.com user names are ASCII). *)
Definition lower_ascii (c : ascii) : ascii :=
  let n := nat_of_ascii c in
  if (65 <=? n)%nat && (n <=? 90)%nat then ascii_of_nat (n + 32) else c.

Fixpoint lower (s : string) : string :=
  match s with
  | EmptyString => EmptyString
  | String c s' => String (lower_ascii c) (lower s')
  end.

(** [resultado in ("checkmated", "resigned", "timeout", "lose")] *)
Definition es_derrota (r : string) : bool :=
  String.eqb r "checkmated" || String.eqb r "resigned"
  || String.eqb r "timeout" || String.eqb r "lose".

(** The outcome taxonomy the branches of the pass implement. *)
Inductive resultado_tipo := Victoria | Derrota | Tablas.

Definition clasificar (r : string) : resultado_tipo :=
  if String.eqb r "win" then Victoria
  else if es_derrota r then Derrota else Tablas.

(** [if filtro_tc and tc != filtro_tc: continue]: [None] and [""] are
    falsy in Python. *)
Definition descartado_por_tc (filtro_tc : option string) (tc : string) : bool :=
  match filtro_tc with
  | Some f => negb (String.eqb f "") && negb (String.eqb tc f)
  | None => false
  end.

(** [" ".join(str(move) for _, move in zip(range(4), mainline_moves()))] *)
Definition clave_apertura (jugadas : list string) : string :=
  String.concat " " (firstn 4 jugadas).

(** The analyzer object: [self.user], [self.partidas], [self.stats]
    ([None] is the empty dictionary [{}] set by [__init__]). *)
Record analizador := mkAnalizador {
  user : string;
  partidas : list partida;
  stats_de : option stats
}.

(** [ChessAnalizadorPro(username)] *)
Definition nuevo_analizador (username : string) : analizador :=
  mkAnalizador (lower username) [] None.

Section Analisis.

(** [chess.pgn.read_game] on a transcript, with the main line enumerated. *)
Variable read_game : string -> lectura.
(** [datetime.datetime.fromtimestamp(t).strftime("%A")] *)
Variable dia_semana : Z -> string.

(** Lines 87-99: perspective of the tracked player. Returns whether the
    player had white, the opponent, the opponent's rating and the result
    code of the player's side. *)
Definition perspectiva (usr : string) (game : partida)
    : bool * string * Z * string :=
  let blanco := lower (username (white game)) in
  let negro := lower (username (black game)) in
  if String.eqb blanco usr
  then (true, negro, default 0 (rating (black game)), result (white game))
  else (false, blanco, default 0 (rating (white game)), result (black game)).

(** Lines 91 / 96: the games-played counter of the player's colour. *)
Definition contar_color (es_blanco : bool) (s : stats) : stats :=
  if es_blanco then set_blancas_partidas (blancas_partidas s + 1) s
  else set_negras_partidas (negras_partidas s + 1) s.

(** Lines 104-106. *)
Definition registrar_rival (rival : string) (rating_rival : Z) (s : stats)
    : stats :=
  let s := set_rivales (rivales s ++ [rival]) s in
  let s := set_ratings_rivales (ratings_rivales s ++ [rating_rival]) s in
  set_partidas_analizadas (partidas_analizadas s + 1) s.

(** Lines 108-127: outcome, streak and best-win / worst-loss. *)
Definition registrar_resultado (es_blanco : bool) (rival : string)
    (rating_rival : Z) (resultado : string) (s : stats) : stats :=
  if String.eqb resultado "win" then
    let s := set_ganadas (ganadas s + 1) s in
    let s := set_racha_actual
               (if racha_actual s >=? 0 then racha_actual s + 1 else 1) s in
    let s := set_racha_max_g (Z.max (racha_max_g s) (racha_actual s)) s in
    let s := if es_blanco then set_blancas_g (blancas_g s + 1) s
             else set_negras_g (negras_g s + 1) s in
    if rating_rival >? snd (mejor_victoria s)
    then set_mejor_victoria (rival, rating_rival) s else s
  else if es_derrota resultado then
    let s := set_perdidas (perdidas s + 1) s in
    let s := set_racha_actual
               (if racha_actual s <=? 0 then racha_actual s - 1 else -1) s in
    let s := set_racha_max_p (Z.min (racha_max_p s) (racha_actual s)) s in
    if rating_rival <? snd (peor_derrota s)
    then set_peor_derrota (rival, rating_rival) s else s
  else
    let s := set_tablas (tablas s + 1) s in
    let s := set_tablas_por_tipo (incr resultado (tablas_por_tipo s)) s in
    set_racha_actual 0 s.

(** Lines 142-148: opening counters for a parsed main line. *)
Definition registrar_apertura (resultado : string) (jugadas : list string)
    (s : stats) : stats :=
  let apertura_key := clave_apertura jugadas in
  if String.eqb apertura_key "" then s else
  let s := set_aperturas (incr apertura_key (aperturas s)) s in
  let d := aperturas_con_resultados s in
  let d := if String.eqb resultado "win" then
             let r := default apertura_vacia (d !! apertura_key) in
             <[apertura_key := mkAperturaStats (ap_ganadas r + 1) (ap_total r)]> d
           else d in
  let r := default apertura_vacia (d !! apertura_key) in
  set_aperturas_con_resultados
    (<[apertura_key := mkAperturaStats (ap_ganadas r) (ap_total r + 1)]> d) s.

(** Lines 135-140: total half-moves and shortest / longest game. *)
Definition registrar_extremos (texto : string) (jugadas : Z) (s : stats)
    : stats :=
  let s := set_total_jugadas (total_jugadas s + jugadas) s in
  let s := if jugadas <? snd (partida_corta s)
           then set_partida_corta (texto, jugadas) s else s in
  if jugadas >? snd (partida_larga s)
  then set_partida_larga (texto, jugadas) s else s.

(** Lines 130-152. [None] is the [continue] of the [except] branch: the
    rest of the loop body is skipped for this game. *)
Definition analizar_pgn (resultado : string) (game : partida) (s : stats)
    : option stats :=
  match pgn game with
  | None => Some s
  | Some texto =>
      match read_game texto with
      | LeeExcepcion => None
      | LeeNinguna => Some s
      | LeePartida movs =>
          let s := registrar_extremos texto (Z.of_nat (length movs)) s in
          Some (registrar_apertura resultado movs s)
      end
  end.

(** Lines 154-164: time control and weekday counters. *)
Definition registrar_categorias (tc resultado : string) (game : partida)
    (s : stats) : stats :=
  let s := set_time_controls (incr tc (time_controls s)) s in
  let dia := dia_semana (default 0 (end_time game)) in
  let s := set_juegos_por_dia (incr dia (juegos_por_dia s)) s in
  let etiqueta := if String.eqb resultado "win" then "ganadas"%string
                  else if es_derrota resultado then "perdidas"%string
                  else "tablas"%string in
  let rd := resultados_dia s in
  set_resultados_dia
    (<[dia := incr etiqueta (default ∅ (rd !! dia))]> rd) s.

(** Line 83: [game.get("time_control", "N/A")] *)
Definition tc_de (game : partida) : string :=
  default "N/A"%string (time_control game).

(** One iteration of the loop of lines 82-164. *)
Definition paso (usr : string) (filtro_tc : option string) (min_rating : Z)
    (s : stats) (game : partida) : stats :=
  let tc := tc_de game in
  if descartado_por_tc filtro_tc tc then s else
  let '(es_blanco, rival, rating_rival, resultado) := perspectiva usr game in
  let s := contar_color es_blanco s in
  if rating_rival <? min_rating then s else
  let s := registrar_rival rival rating_rival s in
  let s := registrar_resultado es_blanco rival rating_rival resultado s in
  match analizar_pgn resultado game s with
  | None => s
  | Some s => registrar_categorias tc resultado game s
  end.

(** The loop over [self.partidas] starting from [stats_iniciales]. *)
Definition agregar (usr : string) (games : list partida)
    (filtro_tc : option string) (min_rating : Z) : stats :=
  fold_left (paso usr filtro_tc min_rating) games stats_iniciales.

(** [analizar_partidas(filtro_tc, min_rating)]: with no games it returns
    before touching [self.stats]. *)
Definition analizar_partidas (a : analizador) (filtro_tc : option string)
    (min_rating : Z) : analizador :=
  match partidas a with
  | [] => a
  | games =>
      mkAnalizador (user a) games
        (Some (agregar (user a) games filtro_tc min_rating))
  end.

(** The states of [self.stats] after each iteration of the loop. *)
Fixpoint trazas (usr : string) (filtro_tc : option string) (min_rating : Z)
    (s : stats) (games : list partida) : list stats :=
  match games with
  | [] => []
  | g :: gs =>
      let s' := paso usr filtro_tc min_rating s g in
      s' :: trazas usr filtro_tc min_rating s' gs
  end.

End Analisis.

(** The opponent's rating as read on lines 93 / 98. *)
Definition rating_rival_de (usr : string) (game : partida) : Z :=
  let '(_, _, r, _) := perspectiva usr game in r.

(** The two opening counters after [registrar_apertura]. *)
Definition aperturas_tras (r : string) (m : list string) (s : stats) :=
  aperturas (registrar_apertura r m s).

Definition aperturas_cr_tras (r : string) (m : list string) (s : stats) :=
  aperturas_con_resultados (registrar_apertura r m s).

(** [generar_reporte]: [if not s or s["partidas_analizadas"] == 0] no
    report is produced. [true] when the report is built. *)
Definition genera_reporte (a : analizador) : bool :=
  match stats_de a with
  | None => false
  | Some s => negb (partidas_analizadas s =? 0)
  end.

(** [s['ganadas'] * 100 // s["partidas_analizadas"] if ... > 0 else 0] *)
Definition winrate_global (s : stats) : Z :=
  if partidas_analizadas s >? 0 then ganadas s * 100 / partidas_analizadas s
  else 0.

(** The outcome counters and the opponent lists. *)
Definition conteo (s : stats) :=
  (ganadas s, perdidas s, tablas s, partidas_analizadas s, rivales s,
   ratings_rivales s).

(** The streak state. *)
Definition rachas (s : stats) :=
  (racha_actual s, racha_max_g s, racha_max_p s).

(** The invariant of the spec: [won + lost + drawn == games_analyzed] and
    both opponent lists have [games_analyzed] entries. *)
Definition inv_conteo (s : stats) : Prop :=
  ganadas s + perdidas s + tablas s = partidas_analizadas s /\
  Z.of_nat (length (rivales s)) = partidas_analizadas s /\
  Z.of_nat (length (ratings_rivales s)) = partidas_analizadas s.

(** The result code of the tracked player's side (lines 94 / 99). *)
Definition resultado_de (usr : string) (game : partida) : string :=
  let '(_, _, _, r) := perspectiva usr game in r.

(** The opening counters. *)
Definition aperturas_de (s : stats) :=
  (aperturas s, aperturas_con_resultados s).

(** The shortest and longest game records. *)
Definition extremos (s : stats) := (partida_corta s, partida_larga s).

(** The categorical counters of lines 154-164. *)
Definition categorias (s : stats) :=
  (time_controls s, juegos_por_dia s, resultados_dia s).

(** The bounds the streak state keeps along the pass. *)
Definition inv_rachas (s : stats) : Prop :=
  0 <= racha_max_g s /\ racha_actual s <= racha_max_g s /\
  racha_max_p s <= 0 /\ racha_max_p s <= racha_actual s.

(** The same game with the tracked player [usr] written in as black. *)
Definition como_negras (usr : string) (g : partida) : partida :=
  mkPartida (white g) (mkJugador usr (rating (black g)) (result (black g)))
    (time_control g) (end_time g) (pgn g).

(** * The other methods of [ChessAnalizadorPro] *)

(** ** [obtener_partidas] (lines 25-49) *)

(** [l[i:]] on a Python list. *)
Definition rebanada_desde {A} (i : Z) (l : list A) : list A :=
  let n := Z.of_nat (length l) in
  let inicio := if i <? 0 then Z.max 0 (n + i) else Z.min i n in
  skipn (Z.to_nat inicio) l.

Section Descarga.

(** [requests.get(self.base_url)] followed by [raise_for_status()] and
    [.json()["archives"]]: [None] is a [RequestException]. The URL is
    built from [self.user]. A response without the key is not part of
    the model. *)
Variable get_archivos : string -> option (list string).
(** [requests.get(url_mes)], [raise_for_status()], [.json()["games"]]. *)
Variable get_mes : string -> option (list partida).

(** [url_mes.split('/')[-2]] on line 39 exists when the URL holds a
    ['/']; otherwise it raises an [IndexError], which the [except] of
    line 47 does not catch. *)
Definition tiene_barra (u : string) : bool :=
  existsb (fun c => Ascii.eqb c "/"%char) (list_ascii_of_string u).

(** How the loop of lines 38-43 ends: it runs through ([ok = true]), or a
    request fails and the [except] returns [False] ([ok = false]), or the
    progress line raises an uncaught [IndexError]. Each carries
    [self.partidas] at that point. *)
Inductive descarga :=
| Terminada (ok : bool) (ps : list partida)
| IndiceFuera (ps : list partida).

(** Lines 38-43: the months are fetched in order and each one extends
    [self.partidas] at once. *)
Fixpoint descargar (meses : list string) (ps : list partida) : descarga :=
  match meses with
  | [] => Terminada true ps
  | u :: us =>
      if negb (tiene_barra u) then IndiceFuera ps else
      match get_mes u with
      | None => Terminada false ps
      | Some gs => descargar us (ps ++ gs)
      end
  end.

(** The outcome of [obtener_partidas]: its return value, or the uncaught
    [IndexError]; each with the analyzer after the call. *)
Inductive obtencion :=
| Obtenidas (ok : bool) (a : analizador)
| ErrorIndice (a : analizador).

(** [obtener_partidas(meses_a_analizar)]. *)
Definition obtener_partidas (a : analizador) (meses_a_analizar : Z)
    : obtencion :=
  match get_archivos (user a) with
  | None => Obtenidas false a
  | Some archivos =>
      match descargar (rebanada_desde (- meses_a_analizar) archivos) (partidas a) with
      | Terminada ok ps => Obtenidas ok (mkAnalizador (user a) ps (stats_de a))
      | IndiceFuera ps => ErrorIndice (mkAnalizador (user a) ps (stats_de a))
      end
  end.

End Descarga.

(** ** [generar_reporte] (lines 168-244): the guarded win rates *)

(** Lines 191-193. *)
Definition winrate_blancas (s : stats) : option Z :=
  if blancas_partidas s >? 0 then Some (blancas_g s * 100 / blancas_partidas s)
  else None.

(** Lines 194-196. *)
Definition winrate_negras (s : stats) : option Z :=
  if negras_partidas s >? 0 then Some (negras_g s * 100 / negras_partidas s)
  else None.

(** ** [histograma_dias] (lines 246-261) *)

Definition nombres_dias : list string :=
  ["Lunes"; "Martes"; "Miércoles"; "Jueves"; "Viernes"; "Sábado";
   "Domingo"]%string.

(** [max(...)] of a non-empty list of integers. *)
Definition max_lista (l : list Z) : Z :=
  match l with
  | [] => 0
  | x :: r => fold_left Z.max r x
  end.

(** What the method does: [self.stats["juegos_por_dia"]] raises a
    [KeyError] on the empty dictionary; otherwise it prints either the
    rows (day name, number of [#], games) or the no-data line. *)
Inductive histograma :=
| HistKeyError
| HistSinDatos
| HistFilas (filas : list (string * nat * Z)).

Section Histograma.

(** [int((juegos / max_juegos) * 20)], computed in floating point. *)
Variable escala : Z -> Z -> nat.

Definition histograma_dias (st : option stats) : histograma :=
  match st with
  | None => HistKeyError
  | Some s =>
      let dias_ordenados :=
        map (fun n => (n, default 0 (juegos_por_dia s !! n))) nombres_dias in
      let max_juegos := max_lista (map snd dias_ordenados) in
      if max_juegos >? 0 then
        HistFilas (map (fun '(n, j) => (n, escala j max_juegos, j))
                     dias_ordenados)
      else HistSinDatos
  end.

End Histograma.

(** ** [generar_recomendaciones] (lines 263-330) *)

(** The advice printed by rules 1, 2, 3 and 5, with the values they
    print. Rules 4 and 6 compare floating-point ratios while walking
    dictionaries in insertion order; they are not part of this model. *)
Inductive recomendacion :=
| RecWinrateBajo
| RecWinrateSolido
| RecColor (color_inferior : string)
| RecRachas
| RecCortas (promedio_jugadas : Z)
| RecLargas (promedio_jugadas : Z).

(** Rule 2, lines 280-286. *)
Definition rec_colores (s : stats) : list recomendacion :=
  if (blancas_partidas s >? 0) && (negras_partidas s >? 0) then
    let wb := blancas_g s * 100 / blancas_partidas s in
    let wn := negras_g s * 100 / negras_partidas s in
    if Z.abs (wb - wn) >? 10
    then [RecColor (if wb >? wn then "negras"%string else "blancas"%string)]
    else []
  else [].

(** Rule 5, lines 309-314. *)
Definition rec_longitud (s : stats) : list recomendacion :=
  if partidas_analizadas s >? 0 then
    let p := total_jugadas s / partidas_analizadas s in
    if p <? 25 then [RecCortas p]
    else if p >? 40 then [RecLargas p] else []
  else [].

(** Lines 265-314 (rules 4 and 6 left out). *)
Definition recomendaciones (st : option stats) : list recomendacion :=
  match st with
  | None => []
  | Some s =>
      if partidas_analizadas s =? 0 then [] else
      (if winrate_global s <? 50 then RecWinrateBajo else RecWinrateSolido)
      :: rec_colores s
      ++ (if racha_max_p s <? -3 then [RecRachas] else [])
      ++ rec_longitud s
  end.

(** ** [seleccionar_partida] (lines 344-376) *)










(** ** The script (lines 379-388) *)

(** How a run ends: [obtener_partidas] raises its [IndexError], the
    download fails, [histograma_dias] raises, or the run goes through with
    the final analyzer, histogram and advice. *)
Inductive ejecucion :=
| FallaIndice
| SinConexion
| FallaHistograma (reporte : bool)
| Completa (a : analizador) (reporte : bool) (h : histograma)
    (recs : list recomendacion).

Section Script.

Variable read_game : string -> lectura.
Variable dia_semana : Z -> string.
Variable get_archivos : string -> option (list string).
Variable get_mes : string -> option (list partida).
Variable escala : Z -> Z -> nat.

(** Lines 381-388; [generar_reporte] is recorded by whether it builds a
    report, [guardar_json] writes a file and returns nothing. *)
Definition script (nombre_usuario : string) : ejecucion :=
  let a := nuevo_analizador nombre_usuario in
  match obtener_partidas get_archivos get_mes a 1 with
  | ErrorIndice _ => FallaIndice
  | Obtenidas ok a =>
      if ok then
        let a := analizar_partidas read_game dia_semana a None 0 in
        let rep := genera_reporte a in
        match histograma_dias escala (stats_de a) with
        | HistKeyError => FallaHistograma rep
        | h => Completa a rep h (recomendaciones (stats_de a))
        end
      else SinConexion
  end.

End Script.

(** ** Vocabulary of the properties below *)

(** The games of the list that reach line 104: they pass the time-control
    filter and the rating filter. *)
Definition pasa_filtros (usr : string) (f : option string) (m : Z)
    (g : partida) : bool :=
  negb (descartado_por_tc f (tc_de g)) && negb (rating_rival_de usr g <? m).

Definition analizadas (usr : string) (f : option string) (m : Z)
    (games : list partida) : list partida :=
  List.filter (pasa_filtros usr f m) games.

(** The opponent and the colour as read on lines 87-99. *)
Definition rival_de (usr : string) (g : partida) : string :=
  let '(_, r, _, _) := perspectiva usr g in r.

Definition juega_blancas (usr : string) (g : partida) : bool :=
  let '(b, _, _, _) := perspectiva usr g in b.

Definition es_tipo (o : resultado_tipo) (usr : string) (g : partida) : bool :=
  match clasificar (resultado_de usr g), o with
  | Victoria, Victoria | Derrota, Derrota | Tablas, Tablas => true
  | _, _ => false
  end.

(** The number of games of a list with a property. *)
Definition cuantas (p : partida -> bool) (l : list partida) : Z :=
  Z.of_nat (length (List.filter p l)).

(** The outcomes of the analyzed games, in order. *)
Definition resultados_en_orden (usr : string) (f : option string) (m : Z)
    (games : list partida) : list resultado_tipo :=
  map (fun g => clasificar (resultado_de usr g)) (analizadas usr f m games).

(** [n] outcomes [o] in a row somewhere in [l]. *)
Definition contiene_racha (o : resultado_tipo) (n : nat)
    (l : list resultado_tipo) : Prop :=
  exists a b, l = a ++ repeat o n ++ b.

(** The main-line length that lines 133-135 add to [total_jugadas]; 0 when
    there is no transcript, [read_game] returns [None] or raises. *)
Definition jugadas_leidas (read_game : string -> lectura) (g : partida) : Z :=
  match pgn g with
  | None => 0
  | Some t =>
      match read_game t with
      | LeePartida movs => Z.of_nat (length movs)
      | _ => 0
      end
  end.

(** [sum(c.values())] *)
Definition suma (c : gmap string Z) : Z := map_fold (fun _ v acc => v + acc) 0 c.

(** Number of leading [o] of a list (most recent first). *)
Fixpoint racha_inicial (o : resultado_tipo) (l : list resultado_tipo) : nat :=
  match l with
  | [] => O
  | x :: r =>
      match x, o with
      | Victoria, Victoria | Derrota, Derrota | Tablas, Tablas =>
          S (racha_inicial o r)
      | _, _ => O
      end
  end.

(** The current streak as [racha_actual] stores it, read off the outcomes
    in reverse order. *)
Definition racha_con_signo (l : list resultado_tipo) : Z :=
  match l with
  | Victoria :: _ => Z.of_nat (racha_inicial Victoria l)
  | Derrota :: _ => - Z.of_nat (racha_inicial Derrota l)
  | _ => 0
  end.

(** [read_game] raises on the transcript of the game: the [except] branch
    of line 150 skips the rest of the loop body. *)
Definition falla_lectura (read_game : string -> lectura) (g : partida) : bool :=
  match pgn g with
  | Some t => match read_game t with LeeExcepcion => true | _ => false end
  | None => false
  end.

(** ** Views of the statistics used by the properties *)

(** The entries of [self.stats] written before the transcript is read. *)
Definition nucleo (s : stats) :=
  (ganadas s, perdidas s, tablas s, blancas_g s, blancas_partidas s,
   negras_g s, negras_partidas s, rivales s, ratings_rivales s,
   tablas_por_tipo s, racha_actual s, racha_max_g s, racha_max_p s,
   mejor_victoria s, peor_derrota s, partidas_analizadas s).

(** One iteration up to line 127. *)
Definition paso_nucleo (usr : string) (f : option string) (m : Z)
    (s : stats) (g : partida) : stats :=
  if descartado_por_tc f (tc_de g) then s else
  let '(es, rv, rr, res) := perspectiva usr g in
  let s := contar_color es s in
  if rr <? m then s else
  registrar_resultado es rv rr res (registrar_rival rv rr s).

(** The streak state after the outcomes [r], most recent first. *)
Definition inv_runs (s : stats) (r : list resultado_tipo) : Prop :=
  racha_actual s = racha_con_signo r /\
  (forall n, contiene_racha Victoria n r <-> Z.of_nat n <= racha_max_g s) /\
  (forall n, contiene_racha Derrota n r <-> racha_max_p s <= - Z.of_nat n).

Definition inv_aperturas (s : stats) : Prop :=
  (forall k, aperturas s !! k = ap_total <$> aperturas_con_resultados s !! k) /\
  (forall k r, aperturas_con_resultados s !! k = Some r ->
     k <> ""%string /\ 0 <= ap_ganadas r <= ap_total r /\ 1 <= ap_total r).

Definition inv_dias (s : stats) (n : Z) : Prop :=
  (forall d, default 0 (juegos_por_dia s !! d) =
             suma (default ∅ (resultados_dia s !! d))) /\
  suma (time_controls s) = n /\ suma (juegos_por_dia s) = n.

(** * Properties of the pass *)

Section Propiedades.

Variable read_game : string -> lectura.
Variable dia_semana : Z -> string.

Local Abbreviation paso := (paso read_game dia_semana).
Local Abbreviation agregar := (agregar read_game dia_semana).
Local Abbreviation analizar_pgn := (analizar_pgn read_game).
Local Abbreviation registrar_categorias := (registrar_categorias dia_semana).

(** Destruct every [if] and [match] of the goal, then compute the
    projections through the [set_<key>] functions. *)
Ltac por_casos := repeat case_match; intros; simplify_eq; simpl; auto.

(** ** Unfolding one iteration for a game that passes both filters *)

Lemma paso_pasa usr f m s g es rv rr res :
  descartado_por_tc f (tc_de g) = false ->
  perspectiva usr g = (es, rv, rr, res) ->
  (rr <? m) = false ->
  paso usr f m s g =
  let s1 := registrar_resultado es rv rr res
              (registrar_rival rv rr (contar_color es s)) in
  match analizar_pgn res g s1 with
  | None => s1
  | Some s2 => registrar_categorias (tc_de g) res g s2
  end.
Proof.
  intros Htc Hp Hr. unfold paso. rewrite Htc, Hp. simpl. rewrite Hr.
  reflexivity.
Qed.

Lemma paso_descartado usr f m s g :
  descartado_por_tc f (tc_de g) = true -> paso usr f m s g = s.
Proof. intros H. unfold paso. rewrite H. reflexivity. Qed.

Lemma paso_bajo_rating usr f m s g es rv rr res :
  descartado_por_tc f (tc_de g) = false ->
  perspectiva usr g = (es, rv, rr, res) ->
  (rr <? m) = true ->
  paso usr f m s g = contar_color es s.
Proof.
  intros Htc Hp Hr. unfold paso. rewrite Htc, Hp. simpl. rewrite Hr.
  reflexivity.
Qed.

(** ** Counters untouched by the parts of the loop body *)

Lemma conteo_contar_color es s : conteo (contar_color es s) = conteo s.
Proof. destruct es; reflexivity. Qed.

Lemma rachas_contar_color es s : rachas (contar_color es s) = rachas s.
Proof. destruct es; reflexivity. Qed.

Lemma conteo_analizar_pgn r g s s' :
  analizar_pgn r g s = Some s' -> conteo s' = conteo s.
Proof.
  unfold analizar_pgn, registrar_extremos, registrar_apertura. por_casos.
Qed.

Lemma rachas_analizar_pgn r g s s' :
  analizar_pgn r g s = Some s' -> rachas s' = rachas s.
Proof.
  unfold analizar_pgn, registrar_extremos, registrar_apertura. por_casos.
Qed.

Lemma conteo_registrar_categorias tc r g s :
  conteo (registrar_categorias tc r g s) = conteo s.
Proof. reflexivity. Qed.

Lemma rachas_registrar_categorias tc r g s :
  rachas (registrar_categorias tc r g s) = rachas s.
Proof. reflexivity. Qed.

Lemma inv_conteo_ext s s' : conteo s = conteo s' -> inv_conteo s -> inv_conteo s'.
Proof.
  unfold conteo, inv_conteo. intros Heq. injection Heq.
  intros -> -> -> -> -> ->. auto.
Qed.

Lemma inv_conteo_registrar es rv rr res s :
  inv_conteo s ->
  inv_conteo (registrar_resultado es rv rr res (registrar_rival rv rr s)).
Proof.
  intros (H1 & H2 & H3). unfold inv_conteo, registrar_resultado,
    registrar_rival in *.
  repeat case_match; simpl; rewrite ?length_app; simpl; lia.
Qed.

Lemma inv_conteo_paso usr f m s g :
  inv_conteo s -> inv_conteo (paso usr f m s g).
Proof.
  intros Hs. unfold paso.
  destruct (descartado_por_tc f (tc_de g)); [exact Hs|].
  destruct (perspectiva usr g) as [[[es rv] rr] res]. simpl.
  assert (Hc : inv_conteo (contar_color es s))
    by (apply (inv_conteo_ext s); [symmetry; apply conteo_contar_color|exact Hs]).
  destruct (rr <? m); [exact Hc|].
  pose proof (inv_conteo_registrar es rv rr res _ Hc) as H1.
  destruct (analizar_pgn res g _) as [s2|] eqn:Hp; [|exact H1].
  apply (inv_conteo_ext s2).
  - symmetry. apply conteo_registrar_categorias.
  - apply (inv_conteo_ext _ _ (eq_sym (conteo_analizar_pgn _ _ _ _ Hp)) H1).
Qed.

Lemma inv_conteo_fold usr f m games s :
  inv_conteo s -> inv_conteo (fold_left (paso usr f m) games s).
Proof.
  revert s. induction games as [|g gs IH]; intros s Hs; simpl.
  - exact Hs.
  - apply IH, inv_conteo_paso, Hs.
Qed.

(** ** C1 *)

(** C1: whatever the game list, the time-control filter and the minimum
    rating, the snapshot built by the loop of [analizar_partidas] has
    [ganadas + perdidas + tablas = partidas_analizadas], and the lists
    [rivales] and [ratings_rivales] both have [partidas_analizadas]
    entries. *)
Theorem agregar_conteos (usr : string) (games : list partida)
    (f : option string) (m : Z) :
  let s := agregar usr games f m in
  ganadas s + perdidas s + tablas s = partidas_analizadas s /\
  Z.of_nat (length (rivales s)) = partidas_analizadas s /\
  Z.of_nat (length (ratings_rivales s)) = partidas_analizadas s.
Proof.
  apply inv_conteo_fold. unfold inv_conteo. simpl. lia.
Qed.

(** ** C3 *)

(** C3: a game that passes the time-control filter but whose opponent is
    rated below [min_rating] only increments the games-played counter of
    the tracked player's colour; every other entry of [self.stats] is
    left as it was. *)
Theorem paso_rating_bajo (usr : string) (f : option string) (m : Z)
    (s : stats) (g : partida) :
  descartado_por_tc f (tc_de g) = false ->
  rating_rival_de usr g < m ->
  paso usr f m s g =
  let '(es_blanco, _, _, _) := perspectiva usr g in
  if es_blanco then set_blancas_partidas (blancas_partidas s + 1) s
  else set_negras_partidas (negras_partidas s + 1) s.
Proof.
  intros Htc Hr. unfold rating_rival_de in Hr.
  destruct (perspectiva usr g) as [[[es rv] rr] res] eqn:Hp.
  rewrite (paso_bajo_rating usr f m s g es rv rr res Htc Hp)
    by (apply Z.ltb_lt; exact Hr).
  reflexivity.
Qed.

(** ** C10 *)

(** C10: when neither player's lower-cased name is the tracked user, the
    game is read from black's side: opponent, rating and result code come
    from [white] / [black] as for a game the user played as black, the
    black games counter is the one incremented, and the whole iteration
    is the one for the same game with the user written in as black. *)
Theorem paso_ninguno_es_usuario (usr : string) (f : option string) (m : Z)
    (s : stats) (g : partida) :
  lower (username (white g)) <> usr ->
  lower (username (black g)) <> usr ->
  perspectiva usr g =
    (false, lower (username (white g)), default 0 (rating (white g)),
     result (black g)) /\
  contar_color false s = set_negras_partidas (negras_partidas s + 1) s /\
  paso usr f m s g = paso usr f m s (como_negras usr g).
Proof.
  intros Hw _. unfold perspectiva.
  destruct (String.eqb_spec (lower (username (white g))) usr) as [E|_];
    [contradiction|].
  split; [reflexivity|]. split; [reflexivity|].
  unfold paso, perspectiva. simpl.
  destruct (String.eqb_spec (lower (username (white g))) usr) as [E|_];
    [contradiction|].
  reflexivity.
Qed.

(** ** Streaks *)

Lemma rachas_paso_pasa usr f m s g es rv rr res :
  descartado_por_tc f (tc_de g) = false ->
  perspectiva usr g = (es, rv, rr, res) ->
  (rr <? m) = false ->
  rachas (paso usr f m s g) =
  rachas (registrar_resultado es rv rr res
            (registrar_rival rv rr (contar_color es s))).
Proof.
  intros Htc Hp Hr. rewrite (paso_pasa usr f m s g es rv rr res Htc Hp Hr).
  simpl. destruct (analizar_pgn res g _) as [s2|] eqn:Ha; [|reflexivity].
  rewrite rachas_registrar_categorias. exact (rachas_analizar_pgn _ _ _ _ Ha).
Qed.

Lemma rachas_registrar es rv rr res s :
  let s1 := registrar_resultado es rv rr res
              (registrar_rival rv rr (contar_color es s)) in
  (clasificar res = Victoria ->
     racha_actual s1 = (if racha_actual s >=? 0 then racha_actual s + 1 else 1)
     /\ racha_max_g s1 = Z.max (racha_max_g s) (racha_actual s1)
     /\ racha_max_p s1 = racha_max_p s) /\
  (clasificar res = Derrota ->
     racha_actual s1 = (if racha_actual s <=? 0 then racha_actual s - 1 else -1)
     /\ racha_max_p s1 = Z.min (racha_max_p s) (racha_actual s1)
     /\ racha_max_g s1 = racha_max_g s) /\
  (clasificar res = Tablas ->
     racha_actual s1 = 0 /\ racha_max_g s1 = racha_max_g s
     /\ racha_max_p s1 = racha_max_p s).
Proof.
  unfold clasificar, registrar_resultado, registrar_rival, contar_color.
  repeat split; repeat case_match; simpl in *; congruence.
Qed.

Lemma inv_rachas_paso usr f m s g :
  inv_rachas s ->
  let s' := paso usr f m s g in
  inv_rachas s' /\
  racha_max_g s' = Z.max (racha_max_g s) (racha_actual s') /\
  racha_max_p s' = Z.min (racha_max_p s) (racha_actual s').
Proof.
  unfold inv_rachas. intros Hs.
  destruct (descartado_por_tc f (tc_de g)) eqn:Htc.
  { rewrite paso_descartado by exact Htc. lia. }
  destruct (perspectiva usr g) as [[[es rv] rr] res] eqn:Hp.
  destruct (rr <? m) eqn:Hr.
  { rewrite (paso_bajo_rating usr f m s g es rv rr res Htc Hp Hr).
    pose proof (rachas_contar_color es s) as E. unfold rachas in E.
    injection E as E1 E2 E3. rewrite E1, E2, E3. lia. }
  pose proof (rachas_paso_pasa usr f m s g es rv rr res Htc Hp Hr) as E.
  unfold rachas in E. injection E as E1 E2 E3. simpl.
  rewrite E1, E2, E3.
  destruct (rachas_registrar es rv rr res s) as (HV & HD & HT).
  destruct (clasificar res) eqn:Hc.
  - destruct (HV eq_refl) as (A & B & C). rewrite B, C, A.
    destruct (racha_actual s >=? 0) eqn:Hge; lia.
  - destruct (HD eq_refl) as (A & B & C). rewrite B, C, A.
    destruct (racha_actual s <=? 0) eqn:Hle; lia.
  - destruct (HT eq_refl) as (A & B & C). rewrite B, C, A. lia.
Qed.

Lemma rachas_fold usr f m games s :
  inv_rachas s ->
  racha_max_g (fold_left (paso usr f m) games s) =
    fold_right Z.max (racha_max_g s)
      (map racha_actual (trazas read_game dia_semana usr f m s games)) /\
  racha_max_p (fold_left (paso usr f m) games s) =
    fold_right Z.min (racha_max_p s)
      (map racha_actual (trazas read_game dia_semana usr f m s games)).
Proof.
  revert s. induction games as [|g gs IH]; intros s Hs; simpl; [lia|].
  destruct (inv_rachas_paso usr f m s g Hs) as (Hs' & Hg & Hp).
  destruct (IH _ Hs') as [IHg IHp]. rewrite IHg, IHp.
  (* the maximum over [r :: rs] starting from [M] is the maximum over [rs]
     starting from [max M r] *)
  assert (Hmax : forall (l : list Z) a b,
             fold_right Z.max (Z.max a b) l = Z.max b (fold_right Z.max a l)).
  { induction l as [|x l IHl]; intros a b; simpl; [lia|]. rewrite IHl. lia. }
  assert (Hmin : forall (l : list Z) a b,
             fold_right Z.min (Z.min a b) l = Z.min b (fold_right Z.min a l)).
  { induction l as [|x l IHl]; intros a b; simpl; [lia|]. rewrite IHl. lia. }
  rewrite Hg, Hp, Hmax, Hmin. split; reflexivity.
Qed.

(** ** C4 *)

(** C4: for a game that passes both filters, the current streak after
    the iteration is at least 1 if the player's result code means a win,
    at most -1 if it means a loss and 0 for a draw; a win raises
    [racha_max_g] to the new streak and a loss lowers [racha_max_p] to it.
    Over a whole pass, [racha_max_g] is the largest and [racha_max_p] the
    smallest of the values the current streak took (starting from 0). *)
Theorem rachas_invariante :
  (forall (usr : string) (f : option string) (m : Z) (s : stats)
          (g : partida),
   descartado_por_tc f (tc_de g) = false ->
   m <= rating_rival_de usr g ->
   let s' := paso usr f m s g in
   (clasificar (resultado_de usr g) = Victoria ->
      1 <= racha_actual s' /\
      racha_max_g s' = Z.max (racha_max_g s) (racha_actual s')) /\
   (clasificar (resultado_de usr g) = Derrota ->
      racha_actual s' <= -1 /\
      racha_max_p s' = Z.min (racha_max_p s) (racha_actual s')) /\
   (clasificar (resultado_de usr g) = Tablas -> racha_actual s' = 0)) /\
  (forall (usr : string) (games : list partida) (f : option string) (m : Z),
   let s := agregar usr games f m in
   let vistas := map racha_actual
                   (trazas read_game dia_semana usr f m stats_iniciales games) in
   racha_max_g s = fold_right Z.max 0 vistas /\
   racha_max_p s = fold_right Z.min 0 vistas).
Proof.
  split.
  - intros usr f m s g Htc Hm.
    unfold rating_rival_de, resultado_de in *.
    destruct (perspectiva usr g) as [[[es rv] rr] res] eqn:Hp.
    assert (Hr : (rr <? m) = false) by (apply Z.ltb_ge; exact Hm).
    pose proof (rachas_paso_pasa usr f m s g es rv rr res Htc Hp Hr) as E.
    unfold rachas in E. injection E as E1 E2 E3. simpl.
    rewrite E1, E2, E3.
    destruct (rachas_registrar es rv rr res s) as (HV & HD & HT).
    split; [|split]; intros Hc.
    + destruct (HV Hc) as (A & B & _). rewrite A in *. split; [|exact B].
      destruct (racha_actual s >=? 0) eqn:Hge; lia.
    + destruct (HD Hc) as (A & B & _). rewrite A in *. split; [|exact B].
      destruct (racha_actual s <=? 0) eqn:Hle; lia.
    + destruct (HT Hc) as (A & _ & _). exact A.
  - intros usr games f m. apply rachas_fold. unfold inv_rachas. simpl. lia.
Qed.

(** ** What each part of the loop body leaves alone *)

Lemma aperturas_registrar es rv rr res s :
  aperturas_de (registrar_resultado es rv rr res
                  (registrar_rival rv rr (contar_color es s))) =
  aperturas_de s.
Proof.
  unfold registrar_resultado, registrar_rival, contar_color. por_casos.
Qed.

Lemma extremos_registrar es rv rr res s :
  extremos (registrar_resultado es rv rr res
              (registrar_rival rv rr (contar_color es s))) = extremos s.
Proof.
  unfold registrar_resultado, registrar_rival, contar_color. por_casos.
Qed.

Lemma categorias_registrar es rv rr res s :
  categorias (registrar_resultado es rv rr res
                (registrar_rival rv rr (contar_color es s))) = categorias s.
Proof.
  unfold registrar_resultado, registrar_rival, contar_color. por_casos.
Qed.

Lemma extremos_contar_color es s : extremos (contar_color es s) = extremos s.
Proof. destruct es; reflexivity. Qed.

Lemma aperturas_registrar_extremos t n s :
  aperturas_de (registrar_extremos t n s) = aperturas_de s.
Proof. unfold registrar_extremos. por_casos. Qed.

Lemma extremos_registrar_apertura r movs s :
  extremos (registrar_apertura r movs s) = extremos s.
Proof. unfold registrar_apertura. por_casos. Qed.

Lemma aperturas_registrar_categorias tc r g s :
  aperturas_de (registrar_categorias tc r g s) = aperturas_de s.
Proof. reflexivity. Qed.

Lemma extremos_registrar_categorias tc r g s :
  extremos (registrar_categorias tc r g s) = extremos s.
Proof. reflexivity. Qed.

Lemma clasificar_victoria r : clasificar r = Victoria <-> String.eqb r "win" = true.
Proof.
  unfold clasificar. destruct (String.eqb r "win"); [tauto|].
  destruct (es_derrota r); split; discriminate.
Qed.

(** ** Openings *)

(** C8: for a game that passes both filters and whose transcript is read
    into the main line [movs], the opening key is the first (at most) four
    moves joined by spaces; when the key is not empty its [aperturas]
    count and its [total] go up by one and its [ganadas] goes up by one
    exactly when the player's result is a win; when it is empty nothing
    changes. *)
Theorem paso_apertura (usr : string) (f : option string) (m : Z)
    (s : stats) (g : partida) (t : string) (movs : list string) :
  descartado_por_tc f (tc_de g) = false ->
  m <= rating_rival_de usr g ->
  pgn g = Some t ->
  read_game t = LeePartida movs ->
  let k := String.concat " " (firstn 4 movs) in
  let s' := paso usr f m s g in
  let r := default apertura_vacia (aperturas_con_resultados s !! k) in
  let gana := match clasificar (resultado_de usr g) with
              | Victoria => 1 | _ => 0 end in
  (k = ""%string ->
     aperturas s' = aperturas s /\
     aperturas_con_resultados s' = aperturas_con_resultados s) /\
  (k <> ""%string ->
     aperturas s' = <[k := default 0 (aperturas s !! k) + 1]> (aperturas s) /\
     aperturas_con_resultados s' =
       <[k := mkAperturaStats (ap_ganadas r + gana) (ap_total r + 1)]>
         (aperturas_con_resultados s)).
Proof.
  intros Htc Hm Hpgn Hrd.
  unfold rating_rival_de, resultado_de in *.
  destruct (perspectiva usr g) as [[[es rv] rr] res] eqn:Hp.
  assert (Hr : (rr <? m) = false) by (apply Z.ltb_ge; exact Hm).
  rewrite (paso_pasa usr f m s g es rv rr res Htc Hp Hr). cbn zeta.
  set (s1 := registrar_resultado es rv rr res
               (registrar_rival rv rr (contar_color es s))).
  set (s2 := registrar_extremos t (Z.of_nat (length movs)) s1).
  assert (Ha : analizar_pgn res g s1 = Some (registrar_apertura res movs s2))
    by (unfold analizar_pgn; rewrite Hpgn, Hrd; reflexivity).
  rewrite Ha.
  assert (E : aperturas_de s2 = aperturas_de s).
  { unfold s2. rewrite aperturas_registrar_extremos. apply aperturas_registrar. }
  unfold aperturas_de in E. injection E as E1 E2.
  assert (F1 : forall x, aperturas (registrar_categorias (tc_de g) res g x)
                        = aperturas x) by reflexivity.
  assert (F2 : forall x, aperturas_con_resultados
                          (registrar_categorias (tc_de g) res g x)
                        = aperturas_con_resultados x) by reflexivity.
  rewrite F1, F2.
  unfold registrar_apertura, clave_apertura.
  destruct (String.eqb_spec (String.concat " " (firstn 4 movs)) "") as [Hk|Hk].
  - split; [intros _; simpl; rewrite E1, E2; split; reflexivity|].
    intros Hk'. contradiction.
  - split; [intros Hk'; contradiction|]. intros _.
    simpl. rewrite E1, E2. split; [reflexivity|].
    destruct (clasificar res) eqn:Hc.
    + apply clasificar_victoria in Hc. rewrite Hc.
      rewrite lookup_insert_eq. simpl. rewrite insert_insert_eq. reflexivity.
    + assert (Hw : String.eqb res "win" = false).
      { destruct (String.eqb res "win") eqn:Hw; [|reflexivity].
        apply clasificar_victoria in Hw. congruence. }
      rewrite Hw. simpl. rewrite Z.add_0_r. reflexivity.
    + assert (Hw : String.eqb res "win" = false).
      { destruct (String.eqb res "win") eqn:Hw; [|reflexivity].
        apply clasificar_victoria in Hw. congruence. }
      rewrite Hw. simpl. rewrite Z.add_0_r. reflexivity.
Qed.

(** ** Shortest and longest game *)

(** Either an iteration leaves the record alone, or it parsed a main line
    strictly shorter (longer) than the recorded one and recorded it. *)
Lemma extremos_paso usr f m s g :
  (partida_corta (paso usr f m s g) = partida_corta s \/
   exists t movs, pgn g = Some t /\ read_game t = LeePartida movs /\
     Z.of_nat (length movs) < snd (partida_corta s) /\
     partida_corta (paso usr f m s g) = (t, Z.of_nat (length movs))) /\
  (partida_larga (paso usr f m s g) = partida_larga s \/
   exists t movs, pgn g = Some t /\ read_game t = LeePartida movs /\
     snd (partida_larga s) < Z.of_nat (length movs) /\
     partida_larga (paso usr f m s g) = (t, Z.of_nat (length movs))).
Proof.
  destruct (descartado_por_tc f (tc_de g)) eqn:Htc.
  { rewrite paso_descartado by exact Htc. auto. }
  destruct (perspectiva usr g) as [[[es rv] rr] res] eqn:Hp.
  destruct (rr <? m) eqn:Hr.
  { rewrite (paso_bajo_rating usr f m s g es rv rr res Htc Hp Hr).
    pose proof (extremos_contar_color es s) as E. unfold extremos in E.
    injection E as E1 E2. rewrite E1, E2. auto. }
  rewrite (paso_pasa usr f m s g es rv rr res Htc Hp Hr). cbn zeta.
  set (s1 := registrar_resultado es rv rr res
               (registrar_rival rv rr (contar_color es s))).
  pose proof (extremos_registrar es rv rr res s) as E.
  fold s1 in E. unfold extremos in E. injection E as E1 E2.
  unfold analizar_pgn.
  destruct (pgn g) as [t|] eqn:Hpgn; [|simpl; rewrite E1, E2; auto].
  destruct (read_game t) as [| |movs] eqn:Hrd; [rewrite E1, E2; auto|
    simpl; rewrite E1, E2; auto|].
  pose proof (extremos_registrar_apertura res movs
    (registrar_extremos t (Z.of_nat (length movs)) s1)) as F.
  unfold extremos in F. injection F as F1 F2. simpl. rewrite F1, F2.
  unfold registrar_extremos. cbv zeta.
  cbn [partida_corta partida_larga set_total_jugadas].
  destruct (Z.of_nat (length movs) <? snd (partida_corta s1)) eqn:Hc;
  cbn [snd partida_larga partida_corta set_partida_corta set_total_jugadas];
  destruct (Z.of_nat (length movs) >? snd (partida_larga s1)) eqn:Hl;
  cbn [partida_larga partida_corta set_partida_larga];
  apply Z.ltb_lt in Hc || apply Z.ltb_ge in Hc;
  rewrite Z.gtb_ltb in Hl; apply Z.ltb_lt in Hl || apply Z.ltb_ge in Hl;
  rewrite <- ?E1, <- ?E2; split;
  solve [left; reflexivity | right; exists t, movs; repeat split; auto].
Qed.

Lemma extremos_paso_leida usr f m s g t movs :
  descartado_por_tc f (tc_de g) = false ->
  m <= rating_rival_de usr g ->
  pgn g = Some t ->
  read_game t = LeePartida movs ->
  let n := Z.of_nat (length movs) in
  let s' := paso usr f m s g in
  partida_corta s' =
    (if n <? snd (partida_corta s) then (t, n) else partida_corta s) /\
  partida_larga s' =
    (if n >? snd (partida_larga s) then (t, n) else partida_larga s).
Proof.
  intros Htc Hm Hpgn Hrd. unfold rating_rival_de in Hm.
  destruct (perspectiva usr g) as [[[es rv] rr] res] eqn:Hp.
  assert (Hr : (rr <? m) = false) by (apply Z.ltb_ge; exact Hm).
  rewrite (paso_pasa usr f m s g es rv rr res Htc Hp Hr). cbn zeta.
  set (s1 := registrar_resultado es rv rr res
               (registrar_rival rv rr (contar_color es s))).
  pose proof (extremos_registrar es rv rr res s) as E.
  fold s1 in E. unfold extremos in E. injection E as E1 E2.
  set (s2 := registrar_extremos t (Z.of_nat (length movs)) s1).
  assert (Ha : analizar_pgn res g s1 = Some (registrar_apertura res movs s2))
    by (unfold analizar_pgn; rewrite Hpgn, Hrd; reflexivity).
  rewrite Ha.
  pose proof (extremos_registrar_apertura res movs s2) as F.
  unfold extremos in F. injection F as F1 F2. simpl. rewrite F1, F2.
  unfold s2, registrar_extremos. cbv zeta.
  cbn [partida_corta partida_larga set_total_jugadas].
  rewrite <- E1, <- E2.
  destruct (Z.of_nat (length movs) <? snd (partida_corta s1));
  cbn [snd partida_larga partida_corta set_partida_corta set_total_jugadas];
  destruct (Z.of_nat (length movs) >? snd (partida_larga s1));
  cbn [partida_larga partida_corta set_partida_larga set_partida_corta
    set_total_jugadas]; split; reflexivity.
Qed.

(** C9 (as the code has it): an iteration that parses a main line of [n]
    half-moves replaces [partida_corta] only when [n] is strictly below
    the recorded count and [partida_larga] only when [n] is strictly
    above it; so over any run of games none of which parses strictly
    shorter (longer) than the record, the record stays the one found
    first. The records start as [("", 9999)] and [("", 0)]. *)
Theorem extremos_estrictos :
  (forall (usr : string) (f : option string) (m : Z) (s : stats)
          (g : partida) (t : string) (movs : list string),
   descartado_por_tc f (tc_de g) = false ->
   m <= rating_rival_de usr g ->
   pgn g = Some t ->
   read_game t = LeePartida movs ->
   let n := Z.of_nat (length movs) in
   let s' := paso usr f m s g in
   partida_corta s' =
     (if n <? snd (partida_corta s) then (t, n) else partida_corta s) /\
   partida_larga s' =
     (if n >? snd (partida_larga s) then (t, n) else partida_larga s)) /\
  (forall (usr : string) (f : option string) (m : Z)
          (games : list partida) (s : stats),
   (forall g t movs, In g games -> pgn g = Some t ->
      read_game t = LeePartida movs ->
      snd (partida_corta s) <= Z.of_nat (length movs)) ->
   partida_corta (fold_left (paso usr f m) games s) = partida_corta s) /\
  (forall (usr : string) (f : option string) (m : Z)
          (games : list partida) (s : stats),
   (forall g t movs, In g games -> pgn g = Some t ->
      read_game t = LeePartida movs ->
      Z.of_nat (length movs) <= snd (partida_larga s)) ->
   partida_larga (fold_left (paso usr f m) games s) = partida_larga s) /\
  partida_corta stats_iniciales = (""%string, 9999) /\
  partida_larga stats_iniciales = (""%string, 0).
Proof.
  split; [exact extremos_paso_leida|].
  split; [|split; [|split; reflexivity]].
  - intros usr f m games. induction games as [|g gs IH]; intros s H;
      simpl; [reflexivity|].
    destruct (extremos_paso usr f m s g) as [[Hc | (t & movs & Hp & Hr & Hlt & _)] _].
    + rewrite IH; [exact Hc|]. rewrite Hc.
      intros g' t movs Hin. apply H. right. exact Hin.
    + specialize (H g t movs (or_introl eq_refl) Hp Hr). lia.
  - intros usr f m games. induction games as [|g gs IH]; intros s H;
      simpl; [reflexivity|].
    destruct (extremos_paso usr f m s g) as [_ [Hc | (t & movs & Hp & Hr & Hlt & _)]].
    + rewrite IH; [exact Hc|]. rewrite Hc.
      intros g' t movs Hin. apply H. right. exact Hin.
    + specialize (H g t movs (or_introl eq_refl) Hp Hr). lia.
Qed.

(** ** Transcript read failures *)

Lemma paso_leida usr f m s g es rv rr res t movs :
  descartado_por_tc f (tc_de g) = false ->
  perspectiva usr g = (es, rv, rr, res) ->
  (rr <? m) = false ->
  pgn g = Some t ->
  read_game t = LeePartida movs ->
  paso usr f m s g =
  registrar_categorias (tc_de g) res g
    (registrar_apertura res movs
       (registrar_extremos t (Z.of_nat (length movs))
          (registrar_resultado es rv rr res
             (registrar_rival rv rr (contar_color es s))))).
Proof.
  intros Htc Hp Hr Hpgn Hrd.
  rewrite (paso_pasa usr f m s g es rv rr res Htc Hp Hr). cbn zeta.
  unfold analizar_pgn. rewrite Hpgn, Hrd. reflexivity.
Qed.

(** C2 (what the code does): when the transcript of a game that passes
    both filters makes the reader raise, the [continue] of the [except]
    branch skips lines 154-164, so the time-control counter and the
    weekday counters keep their old values; when the reader returns
    [None] they are incremented. *)
Theorem paso_pgn_excepcion (usr : string) (f : option string) (m : Z)
    (s : stats) (g : partida) (t : string) :
  descartado_por_tc f (tc_de g) = false ->
  m <= rating_rival_de usr g ->
  pgn g = Some t ->
  let s' := paso usr f m s g in
  (read_game t = LeeExcepcion ->
     time_controls s' = time_controls s /\
     juegos_por_dia s' = juegos_por_dia s /\
     resultados_dia s' = resultados_dia s) /\
  (read_game t = LeeNinguna ->
     time_controls s' = incr (tc_de g) (time_controls s) /\
     juegos_por_dia s' =
       incr (dia_semana (default 0 (end_time g))) (juegos_por_dia s)).
Proof.
  intros Htc Hm Hpgn. unfold rating_rival_de in Hm.
  destruct (perspectiva usr g) as [[[es rv] rr] res] eqn:Hp.
  assert (Hr : (rr <? m) = false) by (apply Z.ltb_ge; exact Hm).
  rewrite (paso_pasa usr f m s g es rv rr res Htc Hp Hr). cbn zeta.
  pose proof (categorias_registrar es rv rr res s) as E.
  unfold categorias in E. injection E as E1 E2 E3.
  unfold analizar_pgn. rewrite Hpgn. split; intros Hrd; rewrite Hrd.
  - rewrite E1, E2, E3. auto.
  - simpl. rewrite E1, E2. auto.
Qed.

(** ** The end-to-end scenario of the spec *)

Lemma registrar_apertura_eq r movs s :
  registrar_apertura r movs s =
  set_aperturas (aperturas_tras r movs s)
    (set_aperturas_con_resultados (aperturas_cr_tras r movs s) s).
Proof.
  unfold aperturas_tras, aperturas_cr_tras, registrar_apertura.
  destruct (String.eqb _ _); destruct s; reflexivity.
Qed.

(** C5: three games of the user "user": a win with white against
    "rival1" (1500) in 20 half-moves at "600", a loss with black against
    "rival2" (1600) in 30 half-moves at "600" (any of the four loss
    codes), and a draw "agreed" with white against "rival3" (1400) in 40
    half-moves at "180"; no filter and minimum rating 0. *)
Theorem escenario_tres_partidas (p1 p2 p3 r2 : string)
    (m1 m2 m3 : list string) (e1 e2 e3 : option Z) :
  read_game p1 = LeePartida m1 -> length m1 = 20%nat ->
  read_game p2 = LeePartida m2 -> length m2 = 30%nat ->
  read_game p3 = LeePartida m3 -> length m3 = 40%nat ->
  In r2 ["checkmated"; "resigned"; "timeout"; "lose"]%string ->
  let g1 := mkPartida (mkJugador "user" (Some 1450) "win")
              (mkJugador "rival1" (Some 1500) "checkmated")
              (Some "600"%string) e1 (Some p1) in
  let g2 := mkPartida (mkJugador "rival2" (Some 1600) "win")
              (mkJugador "user" (Some 1450) r2)
              (Some "600"%string) e2 (Some p2) in
  let g3 := mkPartida (mkJugador "user" (Some 1450) "agreed")
              (mkJugador "rival3" (Some 1400) "agreed")
              (Some "180"%string) e3 (Some p3) in
  let s := agregar "user" [g1; g2; g3] None 0 in
  ganadas s = 1 /\ perdidas s = 1 /\ tablas s = 1 /\
  partidas_analizadas s = 3 /\ winrate_global s = 33 /\
  racha_max_g s = 1 /\ racha_max_p s = -1 /\
  mejor_victoria s = ("rival1"%string, 1500) /\
  peor_derrota s = ("rival2"%string, 1600) /\
  snd (partida_corta s) = 20 /\ snd (partida_larga s) = 40 /\
  time_controls s = list_to_map [("600"%string, 2); ("180"%string, 1)] /\
  tablas_por_tipo s = list_to_map [("agreed"%string, 1)].
Proof.
  intros H1 L1 H2 L2 H3 L3 Hr2 g1 g2 g3 s.
  unfold s, agregar. simpl fold_left.
  rewrite (paso_leida "user" None 0 _ g3 true "rival3" 1400 "agreed" p3 m3)
    by first [reflexivity | assumption].
  rewrite (paso_leida "user" None 0 _ g2 false "rival2" 1600 r2 p2 m2)
    by first [reflexivity | assumption].
  rewrite (paso_leida "user" None 0 _ g1 true "rival1" 1500 "win" p1 m1)
    by first [reflexivity | assumption].
  rewrite L1, L2, L3, !registrar_apertura_eq.
  simpl in Hr2. unfold g1, g2, g3.
  intuition subst; cbn -[incr aperturas_tras aperturas_cr_tras];
    repeat split; reflexivity.
Qed.

(** ** Time-control filter *)

Lemma analizadas_paso usr f m s g :
  partidas_analizadas (paso usr f m s g) =
  partidas_analizadas s +
  (if descartado_por_tc f (tc_de g) then 0
   else if rating_rival_de usr g <? m then 0 else 1).
Proof.
  destruct (descartado_por_tc f (tc_de g)) eqn:Htc.
  { rewrite paso_descartado by exact Htc. lia. }
  unfold rating_rival_de.
  destruct (perspectiva usr g) as [[[es rv] rr] res] eqn:Hp.
  destruct (rr <? m) eqn:Hr.
  { rewrite (paso_bajo_rating usr f m s g es rv rr res Htc Hp Hr).
    destruct es; simpl; lia. }
  rewrite (paso_pasa usr f m s g es rv rr res Htc Hp Hr). cbn zeta.
  set (s1 := registrar_resultado es rv rr res
               (registrar_rival rv rr (contar_color es s))).
  assert (E : partidas_analizadas s1 = partidas_analizadas s + 1).
  { unfold s1, registrar_resultado, registrar_rival, contar_color.
    repeat case_match; simpl; lia. }
  destruct (analizar_pgn res g s1) as [s2|] eqn:Ha; [|exact E].
  pose proof (conteo_analizar_pgn _ _ _ _ Ha) as F.
  unfold conteo in F. injection F as _ _ _ F _ _.
  simpl. rewrite F. exact E.
Qed.

Lemma time_controls_paso usr f m s g :
  time_controls (paso usr f m s g) = time_controls s \/
  (descartado_por_tc f (tc_de g) = false /\
   time_controls (paso usr f m s g) = incr (tc_de g) (time_controls s)).
Proof.
  destruct (descartado_por_tc f (tc_de g)) eqn:Htc.
  { rewrite paso_descartado by exact Htc. auto. }
  destruct (perspectiva usr g) as [[[es rv] rr] res] eqn:Hp.
  destruct (rr <? m) eqn:Hr.
  { rewrite (paso_bajo_rating usr f m s g es rv rr res Htc Hp Hr).
    destruct es; auto. }
  rewrite (paso_pasa usr f m s g es rv rr res Htc Hp Hr). cbn zeta.
  pose proof (categorias_registrar es rv rr res s) as E.
  unfold categorias in E. injection E as E1 _ _.
  unfold analizar_pgn.
  destruct (pgn g) as [t|]; [destruct (read_game t) as [| |movs]|];
    simpl; rewrite ?E1; auto.
  right. split; [reflexivity|].
  unfold registrar_apertura, registrar_extremos.
  repeat case_match; simpl; rewrite E1; reflexivity.
Qed.

Lemma descartado_some f tc :
  f <> ""%string -> descartado_por_tc (Some f) tc = negb (String.eqb tc f).
Proof.
  intros Hf. simpl. destruct (String.eqb_spec f ""); [contradiction|].
  reflexivity.
Qed.

(** C7 (as the code has it): a non-empty time-control filter [f] skips
    every game whose label is not exactly [f]: such an iteration leaves
    [self.stats] as it was, so the pass gives the same snapshot as over
    the games labelled [f] alone; when no opponent is rated below the
    minimum, [partidas_analizadas] is the number of games labelled [f],
    and [time_controls] has no entry other than [f]. The filter is read
    as a Python truth value, so the empty string filters nothing: every
    iteration, and so the whole pass, is the same as with [None]. *)
Theorem filtro_tc_exacto :
  (forall f : string, f <> ""%string ->
  (forall usr m s g, tc_de g <> f -> paso usr (Some f) m s g = s) /\
  (forall usr m games,
     agregar usr games (Some f) m =
     agregar usr (List.filter (fun g => String.eqb (tc_de g) f) games) (Some f) m) /\
  (forall usr m games,
     (forall g, In g games -> m <= rating_rival_de usr g) ->
     partidas_analizadas (agregar usr games (Some f) m) =
     Z.of_nat (length (List.filter (fun g => String.eqb (tc_de g) f) games))) /\
  (forall usr m games k, k <> f ->
     time_controls (agregar usr games (Some f) m) !! k = None)) /\
  (forall usr m s g, paso usr (Some ""%string) m s g = paso usr None m s g) /\
  (forall usr m games,
     agregar usr games (Some ""%string) m = agregar usr games None m).
Proof.
  assert (Hvacio : forall usr m s g,
             paso usr (Some ""%string) m s g = paso usr None m s g)
    by reflexivity.
  split; [|split; [exact Hvacio|]].
  2:{ intros usr m games. unfold agregar. generalize stats_iniciales.
      induction games as [|g gs IH]; intros s; simpl; [reflexivity|].
      rewrite Hvacio. apply IH. }
  intros f Hf.
  assert (Hskip : forall usr m s g, tc_de g <> f -> paso usr (Some f) m s g = s).
  { intros usr m s g Hg. apply paso_descartado.
    rewrite descartado_some by exact Hf.
    destruct (String.eqb_spec (tc_de g) f); [contradiction|reflexivity]. }
  split; [exact Hskip|]. split; [|split].
  - intros usr m games. unfold agregar. generalize stats_iniciales.
    induction games as [|g gs IH]; intros s; simpl; [reflexivity|].
    destruct (String.eqb (tc_de g) f) eqn:E; simpl.
    + apply IH.
    + rewrite Hskip by (apply String.eqb_neq; exact E). apply IH.
  - intros usr m games Hm. unfold agregar.
    assert (G : forall s, partidas_analizadas
                  (fold_left (paso usr (Some f) m) games s) =
                partidas_analizadas s +
                Z.of_nat (length (List.filter (fun g => String.eqb (tc_de g) f)
                                    games))).
    { induction games as [|g gs IH]; intros s; simpl; [lia|].
      rewrite IH by (intros g' Hin; apply Hm; right; exact Hin).
      rewrite analizadas_paso, descartado_some by exact Hf.
      assert (Hg : (rating_rival_de usr g <? m) = false)
        by (apply Z.ltb_ge, Hm; left; reflexivity).
      rewrite Hg.
      destruct (String.eqb (tc_de g) f); simpl; lia. }
    rewrite G. reflexivity.
  - intros usr m games k Hk. unfold agregar.
    assert (G : forall s, time_controls s !! k = None ->
                time_controls (fold_left (paso usr (Some f) m) games s) !! k
                = None).
    { induction games as [|g gs IH]; intros s Hs; simpl; [exact Hs|].
      apply IH.
      destruct (time_controls_paso usr (Some f) m s g) as [E | [Htc E]];
        rewrite E; [exact Hs|].
      rewrite descartado_some in Htc by exact Hf.
      destruct (String.eqb_spec (tc_de g) f) as [Eg|]; [|discriminate].
      unfold incr. rewrite lookup_insert_ne by congruence. exact Hs. }
    apply G. reflexivity.
Qed.

(** ** An empty game list *)

(** C6 (as the code has it): with no games [analizar_partidas] returns
    at once and builds no snapshot: the analyzer, and so [self.stats], is
    left as it was, which for a new analyzer is the empty dictionary;
    [generar_reporte] then produces no report, as it does for a snapshot
    with [partidas_analizadas = 0]. *)
Theorem analizar_sin_partidas :
  (forall (a : analizador) (f : option string) (m : Z),
     partidas a = [] -> analizar_partidas read_game dia_semana a f m = a) /\
  (forall (u : string) (f : option string) (m : Z),
     let a := analizar_partidas read_game dia_semana (nuevo_analizador u) f m in
     stats_de a = None /\ genera_reporte a = false) /\
  (forall (u : string) (games : list partida) (s : stats),
     partidas_analizadas s = 0 ->
     genera_reporte (mkAnalizador u games (Some s)) = false).
Proof.
  split; [|split].
  - intros a f m H. unfold analizar_partidas. rewrite H. reflexivity.
  - intros u f m. split; reflexivity.
  - intros u games s H. unfold genera_reporte. simpl. rewrite H. reflexivity.
Qed.

End Propiedades.

(** * Properties of the other methods *)

Section Cobertura.

Variable read_game : string -> lectura.
Variable dia_semana : Z -> string.

Local Abbreviation paso := (paso read_game dia_semana).
Local Abbreviation agregar := (agregar read_game dia_semana).
Local Abbreviation analizar_pgn := (analizar_pgn read_game).
Local Abbreviation registrar_categorias := (registrar_categorias dia_semana).

Ltac por_casos := repeat case_match; intros; simplify_eq; simpl; auto.



Lemma nucleo_analizar_pgn r g s s' :
  analizar_pgn r g s = Some s' -> nucleo s' = nucleo s.
Proof.
  unfold analizar_pgn, registrar_extremos, registrar_apertura. por_casos.
Qed.

Lemma nucleo_paso usr f m s g :
  nucleo (paso usr f m s g) = nucleo (paso_nucleo usr f m s g).
Proof.
  unfold paso, paso_nucleo.
  destruct (descartado_por_tc f (tc_de g)); [reflexivity|].
  destruct (perspectiva usr g) as [[[es rv] rr] res]. simpl.
  destruct (rr <? m); [reflexivity|].
  destruct (analizar_pgn res g _) as [s2|] eqn:Ha; [|reflexivity].
  rewrite <- (nucleo_analizar_pgn _ _ _ _ Ha). reflexivity.
Qed.

Lemma campo_paso {A} (F : stats -> A) usr f m s g :
  (forall s s', nucleo s = nucleo s' -> F s = F s') ->
  F (paso usr f m s g) = F (paso_nucleo usr f m s g).
Proof. intros HF. apply HF, nucleo_paso. Qed.

Ltac campo := intros ? ? Hn; unfold nucleo in Hn; injection Hn; intros; congruence.

Lemma fold_proyeccion {A} (F : stats -> A) (h : A -> partida -> A) usr f m :
  (forall s g, F (paso usr f m s g) = h (F s) g) ->
  forall games s, F (fold_left (paso usr f m) games s) = fold_left h games (F s).
Proof.
  intros Hs games. induction games as [|g gs IH]; intros s; simpl; [reflexivity|].
  rewrite IH, Hs. reflexivity.
Qed.

Lemma fold_cuenta (p : partida -> bool) games n0 :
  fold_left (fun n g => n + (if p g then 1 else 0)) games n0 = n0 + cuantas p games.
Proof.
  unfold cuantas. revert n0. induction games as [|g gs IH]; intros n0; simpl; [lia|].
  rewrite IH. destruct (p g); simpl; lia.
Qed.

Lemma fold_lista {B} (p : partida -> bool) (v : partida -> B) games l0 :
  fold_left (fun l g => l ++ (if p g then [v g] else [])) games l0 =
  l0 ++ map v (List.filter p games).
Proof.
  revert l0. induction games as [|g gs IH]; intros l0; simpl; [by rewrite app_nil_r|].
  rewrite IH. destruct (p g); simpl; [by rewrite <- app_assoc|by rewrite app_nil_r].
Qed.

Lemma pasa_filtros_eq usr f m g :
  pasa_filtros usr f m g =
  negb (descartado_por_tc f (tc_de g)) &&
  (let '(_, _, rr, _) := perspectiva usr g in negb (rr <? m)).
Proof.
  unfold pasa_filtros, rating_rival_de. destruct (perspectiva usr g) as [[[? ?] ?] ?].
  reflexivity.
Qed.

(** ** Opponents *)

Lemma rivales_paso usr f m s g :
  rivales (paso usr f m s g) =
  rivales s ++ (if pasa_filtros usr f m g then [rival_de usr g] else []).
Proof.
  rewrite (campo_paso rivales) by campo.
  unfold paso_nucleo, pasa_filtros, rating_rival_de, rival_de.
  destruct (descartado_por_tc f (tc_de g)); simpl; [by rewrite app_nil_r|].
  destruct (perspectiva usr g) as [[[es rv] rr] res].
  destruct (rr <? m); simpl.
  - destruct es; simpl; by rewrite app_nil_r.
  - unfold registrar_resultado, registrar_rival. destruct es; por_casos.
Qed.

Ltac casos_nucleo :=
  unfold paso_nucleo, pasa_filtros, rating_rival_de, rival_de, juega_blancas,
    es_tipo, resultado_de, clasificar;
  destruct (descartado_por_tc _ (tc_de _)); simpl;
  [| let es := fresh "es" in let rr := fresh "rr" in
     destruct (perspectiva _ _) as [[[es ?] rr] ?];
     destruct (rr <? _); simpl;
     unfold registrar_resultado, registrar_rival, contar_color ];
  cbv zeta; simpl; por_casos; simpl in *; rewrite ?app_nil_r; try reflexivity; try congruence; try lia.

Lemma ratings_paso usr f m s g :
  ratings_rivales (paso usr f m s g) =
  ratings_rivales s ++
    (if pasa_filtros usr f m g then [rating_rival_de usr g] else []).
Proof. rewrite (campo_paso ratings_rivales) by campo. casos_nucleo. Qed.

Lemma ganadas_paso usr f m s g :
  ganadas (paso usr f m s g) = ganadas s +
    (if pasa_filtros usr f m g && es_tipo Victoria usr g then 1 else 0).
Proof. rewrite (campo_paso ganadas) by campo. casos_nucleo. Qed.

Lemma perdidas_paso usr f m s g :
  perdidas (paso usr f m s g) = perdidas s +
    (if pasa_filtros usr f m g && es_tipo Derrota usr g then 1 else 0).
Proof. rewrite (campo_paso perdidas) by campo. casos_nucleo. Qed.

Lemma tablas_paso usr f m s g :
  tablas (paso usr f m s g) = tablas s +
    (if pasa_filtros usr f m g && es_tipo Tablas usr g then 1 else 0).
Proof. rewrite (campo_paso tablas) by campo. casos_nucleo. Qed.

Lemma blancas_partidas_paso usr f m s g :
  blancas_partidas (paso usr f m s g) = blancas_partidas s +
    (if negb (descartado_por_tc f (tc_de g)) && juega_blancas usr g then 1 else 0).
Proof. rewrite (campo_paso blancas_partidas) by campo. casos_nucleo. Qed.

Lemma negras_partidas_paso usr f m s g :
  negras_partidas (paso usr f m s g) = negras_partidas s +
    (if negb (descartado_por_tc f (tc_de g)) && negb (juega_blancas usr g)
     then 1 else 0).
Proof. rewrite (campo_paso negras_partidas) by campo. casos_nucleo. Qed.

Lemma blancas_g_paso usr f m s g :
  blancas_g (paso usr f m s g) = blancas_g s +
    (if pasa_filtros usr f m g && juega_blancas usr g && es_tipo Victoria usr g
     then 1 else 0).
Proof. rewrite (campo_paso blancas_g) by campo. casos_nucleo. Qed.

Lemma negras_g_paso usr f m s g :
  negras_g (paso usr f m s g) = negras_g s +
    (if pasa_filtros usr f m g && negb (juega_blancas usr g)
        && es_tipo Victoria usr g then 1 else 0).
Proof. rewrite (campo_paso negras_g) by campo. casos_nucleo. Qed.

Lemma partidas_analizadas_paso usr f m s g :
  partidas_analizadas (paso usr f m s g) = partidas_analizadas s +
    (if pasa_filtros usr f m g then 1 else 0).
Proof. rewrite (campo_paso partidas_analizadas) by campo. casos_nucleo. Qed.

Lemma mejor_victoria_paso usr f m s g :
  mejor_victoria (paso usr f m s g) =
  if pasa_filtros usr f m g && es_tipo Victoria usr g
     && (rating_rival_de usr g >? snd (mejor_victoria s))
  then (rival_de usr g, rating_rival_de usr g) else mejor_victoria s.
Proof. rewrite (campo_paso mejor_victoria) by campo. casos_nucleo. Qed.

Lemma peor_derrota_paso usr f m s g :
  peor_derrota (paso usr f m s g) =
  if pasa_filtros usr f m g && es_tipo Derrota usr g
     && (rating_rival_de usr g <? snd (peor_derrota s))
  then (rival_de usr g, rating_rival_de usr g) else peor_derrota s.
Proof. rewrite (campo_paso peor_derrota) by campo. casos_nucleo. Qed.

Lemma tablas_por_tipo_paso usr f m s g :
  tablas_por_tipo (paso usr f m s g) =
  if pasa_filtros usr f m g && es_tipo Tablas usr g
  then incr (resultado_de usr g) (tablas_por_tipo s) else tablas_por_tipo s.
Proof. rewrite (campo_paso tablas_por_tipo) by campo. casos_nucleo. Qed.

Lemma cuantas_ext (p q : partida -> bool) l :
  (forall g, p g = q g) -> cuantas p l = cuantas q l.
Proof.
  intros H. unfold cuantas. f_equal. f_equal. induction l as [|g l IH]; simpl; [reflexivity|].
  rewrite H, IH. reflexivity.
Qed.

Lemma cuantas_mono (p q : partida -> bool) l :
  (forall g, p g = true -> q g = true) -> cuantas p l <= cuantas q l.
Proof.
  intros H. unfold cuantas. apply inj_le. induction l as [|g l IH]; simpl; [lia|].
  destruct (p g) eqn:Hp; [rewrite (H g Hp); simpl; lia|].
  destruct (q g); simpl; lia.
Qed.

Lemma cuantas_particion (p q : partida -> bool) l :
  cuantas (fun g => p g && q g) l + cuantas (fun g => p g && negb (q g)) l =
  cuantas p l.
Proof.
  unfold cuantas. induction l as [|g l IH]; simpl; [lia|].
  destruct (p g), (q g); simpl; lia.
Qed.

Lemma cuantas_no_negativa p l : 0 <= cuantas p l.
Proof. unfold cuantas. lia. Qed.

Lemma fold_contador (F : stats -> Z) (p : partida -> bool) usr f m games :
  F stats_iniciales = 0 ->
  (forall s g, F (paso usr f m s g) = F s + (if p g then 1 else 0)) ->
  F (agregar usr games f m) = cuantas p games.
Proof.
  intros H0 Hs. unfold agregar.
  rewrite (fold_proyeccion F (fun n g => n + (if p g then 1 else 0))) by exact Hs.
  rewrite fold_cuenta, H0. lia.
Qed.

Lemma fold_listado {B} (F : stats -> list B) (p : partida -> bool)
    (v : partida -> B) usr f m games :
  F stats_iniciales = [] ->
  (forall s g, F (paso usr f m s g) = F s ++ (if p g then [v g] else [])) ->
  F (agregar usr games f m) = map v (List.filter p games).
Proof.
  intros H0 Hs. unfold agregar.
  rewrite (fold_proyeccion F (fun l g => l ++ (if p g then [v g] else []))) by exact Hs.
  rewrite fold_lista, H0. reflexivity.
Qed.

Ltac contar_campo L := apply fold_contador; [reflexivity | apply L].

Lemma analizadas_cuantas usr f m games :
  partidas_analizadas (agregar usr games f m) =
  cuantas (pasa_filtros usr f m) games.
Proof. apply fold_contador; [reflexivity | apply partidas_analizadas_paso]. Qed.


Lemma ganadas_cuantas usr f m games :
  ganadas (agregar usr games f m) =
  cuantas (fun g => pasa_filtros usr f m g && es_tipo Victoria usr g) games.
Proof. contar_campo ganadas_paso. Qed.

Lemma perdidas_cuantas usr f m games :
  perdidas (agregar usr games f m) =
  cuantas (fun g => pasa_filtros usr f m g && es_tipo Derrota usr g) games.
Proof. contar_campo perdidas_paso. Qed.

Lemma tablas_cuantas usr f m games :
  tablas (agregar usr games f m) =
  cuantas (fun g => pasa_filtros usr f m g && es_tipo Tablas usr g) games.
Proof. contar_campo tablas_paso. Qed.

Lemma blancas_partidas_cuantas usr f m games :
  blancas_partidas (agregar usr games f m) =
  cuantas (fun g => negb (descartado_por_tc f (tc_de g)) && juega_blancas usr g)
    games.
Proof. contar_campo blancas_partidas_paso. Qed.

Lemma negras_partidas_cuantas usr f m games :
  negras_partidas (agregar usr games f m) =
  cuantas (fun g => negb (descartado_por_tc f (tc_de g))
                    && negb (juega_blancas usr g)) games.
Proof. contar_campo negras_partidas_paso. Qed.

Lemma blancas_g_cuantas usr f m games :
  blancas_g (agregar usr games f m) =
  cuantas (fun g => pasa_filtros usr f m g && juega_blancas usr g
                    && es_tipo Victoria usr g) games.
Proof. contar_campo blancas_g_paso. Qed.

Lemma negras_g_cuantas usr f m games :
  negras_g (agregar usr games f m) =
  cuantas (fun g => pasa_filtros usr f m g && negb (juega_blancas usr g)
                    && es_tipo Victoria usr g) games.
Proof. contar_campo negras_g_paso. Qed.

(** X1: the [rivales] and [ratings_rivales] lists are the opponents and
    their ratings of the games that pass both filters, in the order of the
    games. *)
Theorem agregar_rivales (usr : string) (games : list partida)
    (f : option string) (m : Z) :
  rivales (agregar usr games f m) = map (rival_de usr) (analizadas usr f m games) /\
  ratings_rivales (agregar usr games f m) =
    map (rating_rival_de usr) (analizadas usr f m games).
Proof.
  unfold analizadas. split.
  - apply fold_listado; [reflexivity | apply rivales_paso].
  - apply fold_listado; [reflexivity | apply ratings_paso].
Qed.

(** X2: [partidas_analizadas], [ganadas], [perdidas] and [tablas] count
    the games that pass both filters, and among them the wins, losses and
    draws. *)
Theorem agregar_resultados (usr : string) (games : list partida)
    (f : option string) (m : Z) :
  let s := agregar usr games f m in
  partidas_analizadas s = cuantas (pasa_filtros usr f m) games /\
  ganadas s = cuantas (fun g => pasa_filtros usr f m g && es_tipo Victoria usr g) games /\
  perdidas s = cuantas (fun g => pasa_filtros usr f m g && es_tipo Derrota usr g) games /\
  tablas s = cuantas (fun g => pasa_filtros usr f m g && es_tipo Tablas usr g) games.
Proof.
  simpl. rewrite analizadas_cuantas, ganadas_cuantas, perdidas_cuantas, tablas_cuantas.
  auto.
Qed.

(** X3: [blancas_partidas] and [negras_partidas] count the games that pass
    the time-control filter with the player as white or black, the games later
    dropped by the rating filter included; their sum is the number of such
    games. *)
Theorem agregar_colores (usr : string) (games : list partida)
    (f : option string) (m : Z) :
  let s := agregar usr games f m in
  blancas_partidas s =
    cuantas (fun g => negb (descartado_por_tc f (tc_de g))
                      && juega_blancas usr g) games /\
  negras_partidas s =
    cuantas (fun g => negb (descartado_por_tc f (tc_de g))
                      && negb (juega_blancas usr g)) games /\
  blancas_partidas s + negras_partidas s =
    cuantas (fun g => negb (descartado_por_tc f (tc_de g))) games.
Proof.
  simpl. rewrite blancas_partidas_cuantas, negras_partidas_cuantas.
  split; [reflexivity|]. split; [reflexivity|].
  apply (cuantas_particion (fun g => negb (descartado_por_tc f (tc_de g)))
           (juega_blancas usr)).
Qed.

(** X4: [blancas_g] and [negras_g] count the analyzed wins with each
    colour, and they add up to [ganadas]. *)
Theorem agregar_victorias_por_color (usr : string) (games : list partida)
    (f : option string) (m : Z) :
  let s := agregar usr games f m in
  blancas_g s = cuantas (fun g => pasa_filtros usr f m g && juega_blancas usr g
                                  && es_tipo Victoria usr g) games /\
  negras_g s = cuantas (fun g => pasa_filtros usr f m g
                                 && negb (juega_blancas usr g)
                                 && es_tipo Victoria usr g) games /\
  blancas_g s + negras_g s = ganadas s.
Proof.
  simpl. rewrite blancas_g_cuantas, negras_g_cuantas, ganadas_cuantas.
  split; [reflexivity|]. split; [reflexivity|].
  rewrite <- (cuantas_particion (fun g => pasa_filtros usr f m g && es_tipo Victoria usr g)
             (juega_blancas usr)).
  f_equal; apply cuantas_ext; intros g;
    destruct (pasa_filtros usr f m g), (juega_blancas usr g), (es_tipo Victoria usr g);
    reflexivity.
Qed.

Lemma porcentaje_acotado a n : 0 < n -> 0 <= a <= n -> 0 <= a * 100 / n <= 100.
Proof.
  intros Hn Ha. split.
  - apply Z.div_pos; lia.
  - apply Z.div_le_upper_bound; lia.
Qed.

(** X5: the global win rate of the report and the per-colour win rates it
    prints lie between 0 and 100. *)
Theorem agregar_winrates_acotados (usr : string) (games : list partida)
    (f : option string) (m : Z) :
  let s := agregar usr games f m in
  0 <= winrate_global s <= 100 /\
  (forall w, winrate_blancas s = Some w -> 0 <= w <= 100) /\
  (forall w, winrate_negras s = Some w -> 0 <= w <= 100).
Proof.
  simpl. unfold winrate_global, winrate_blancas, winrate_negras.
  rewrite analizadas_cuantas, ganadas_cuantas, blancas_g_cuantas, negras_g_cuantas,
    blancas_partidas_cuantas, negras_partidas_cuantas.
  split; [|split]; [| intros w Hw | intros w Hw].
  - destruct (Z.gtb_spec (cuantas (pasa_filtros usr f m) games) 0); [|lia].
    apply porcentaje_acotado; [lia|]. split; [apply cuantas_no_negativa|].
    apply cuantas_mono. intros g. destruct (pasa_filtros usr f m g); easy.
  - destruct (Z.gtb_spec (cuantas (fun g => negb (descartado_por_tc f (tc_de g))
                      && juega_blancas usr g) games) 0); [|discriminate].
    injection Hw as <-. apply porcentaje_acotado; [lia|].
    split; [apply cuantas_no_negativa|]. apply cuantas_mono. intros g.
    unfold pasa_filtros. destruct (descartado_por_tc f (tc_de g)), (juega_blancas usr g),
      (rating_rival_de usr g <? m), (es_tipo Victoria usr g); simpl; easy.
  - destruct (Z.gtb_spec (cuantas (fun g => negb (descartado_por_tc f (tc_de g))
                      && negb (juega_blancas usr g)) games) 0); [|discriminate].
    injection Hw as <-. apply porcentaje_acotado; [lia|].
    split; [apply cuantas_no_negativa|]. apply cuantas_mono. intros g.
    unfold pasa_filtros. destruct (descartado_por_tc f (tc_de g)), (juega_blancas usr g),
      (rating_rival_de usr g <? m), (es_tipo Victoria usr g); simpl; easy.
Qed.

Lemma fold_max_right (l : list Z) a : fold_left Z.max l a = fold_right Z.max a l.
Proof.
  revert a. induction l as [|x l IH]; intros a; simpl; [reflexivity|].
  rewrite IH. clear IH. induction l as [|y l IH]; simpl; lia.
Qed.

Lemma fold_min_right (l : list Z) a : fold_left Z.min l a = fold_right Z.min a l.
Proof.
  revert a. induction l as [|x l IH]; intros a; simpl; [reflexivity|].
  rewrite IH. clear IH. induction l as [|y l IH]; simpl; lia.
Qed.

Lemma fold_record_max (P : partida -> bool) (v : partida -> string)
    (r : partida -> Z) games (mv0 : string * Z) :
  let W := map (fun g => (v g, r g)) (List.filter P games) in
  let mv := fold_left (fun mv g => if P g && (r g >? snd mv) then (v g, r g) else mv)
              games mv0 in
  snd mv = fold_left Z.max (map snd W) (snd mv0) /\
  (mv = mv0 \/ (In mv W /\ snd mv0 < snd mv)).
Proof.
  revert mv0. induction games as [|g gs IH]; intros mv0; simpl; [auto|].
  destruct (P g) eqn:HP; simpl.
  - destruct (Z.gtb_spec (r g) (snd mv0)) as [Hgt|Hle]; simpl.
    + destruct (IH (v g, r g)) as [H1 H2]. simpl in H1, H2.
      rewrite Z.max_r by lia. split; [exact H1|].
      right. destruct H2 as [->|[Hin Hlt]]; simpl; [split; [left; reflexivity|lia]|].
      split; [right; exact Hin|lia].
    + destruct (IH mv0) as [H1 H2].
      rewrite Z.max_l by lia. split; [exact H1|].
      destruct H2 as [->|[Hin Hlt]]; [left; reflexivity|].
      right. split; [right; exact Hin|lia].
  - apply IH.
Qed.

Lemma fold_record_min (P : partida -> bool) (v : partida -> string)
    (r : partida -> Z) games (mv0 : string * Z) :
  let W := map (fun g => (v g, r g)) (List.filter P games) in
  let mv := fold_left (fun mv g => if P g && (r g <? snd mv) then (v g, r g) else mv)
              games mv0 in
  snd mv = fold_left Z.min (map snd W) (snd mv0) /\
  (mv = mv0 \/ (In mv W /\ snd mv < snd mv0)).
Proof.
  revert mv0. induction games as [|g gs IH]; intros mv0; simpl; [auto|].
  destruct (P g) eqn:HP; simpl.
  - destruct (Z.ltb_spec (r g) (snd mv0)) as [Hlt|Hge]; simpl.
    + destruct (IH (v g, r g)) as [H1 H2]. simpl in H1, H2.
      rewrite Z.min_r by lia. split; [exact H1|].
      right. destruct H2 as [->|[Hin Hlt']]; simpl; [split; [left; reflexivity|lia]|].
      split; [right; exact Hin|lia].
    + destruct (IH mv0) as [H1 H2].
      rewrite Z.min_l by lia. split; [exact H1|].
      destruct H2 as [->|[Hin Hlt]]; [left; reflexivity|].
      right. split; [right; exact Hin|lia].
  - apply IH.
Qed.

(** X6: the rating of [mejor_victoria] is the highest rating among the
    opponents beaten in the analyzed games (0 without a win), and the record
    is either the initial record (empty name, rating 0) or one of these wins with a positive
    rating. *)
Theorem agregar_mejor_victoria (usr : string) (games : list partida)
    (f : option string) (m : Z) :
  let victorias := List.filter (fun g => pasa_filtros usr f m g
                                         && es_tipo Victoria usr g) games in
  let mv := mejor_victoria (agregar usr games f m) in
  snd mv = fold_right Z.max 0 (map (rating_rival_de usr) victorias) /\
  (mv = (""%string, 0) \/
   (In mv (map (fun g => (rival_de usr g, rating_rival_de usr g)) victorias)
    /\ 0 < snd mv)).
Proof.
  cbv zeta. unfold agregar.
  rewrite (fold_proyeccion mejor_victoria
    (fun mv g => if (pasa_filtros usr f m g && es_tipo Victoria usr g)
                    && (rating_rival_de usr g >? snd mv)
                 then (rival_de usr g, rating_rival_de usr g) else mv))
    by apply mejor_victoria_paso.
  change (mejor_victoria stats_iniciales) with (""%string, 0).
  destruct (fold_record_max (fun g => pasa_filtros usr f m g && es_tipo Victoria usr g)
              (rival_de usr) (rating_rival_de usr) games (""%string, 0))
    as [H1 H2].
  cbv zeta in H1, H2. split.
  - rewrite H1, fold_max_right, map_map. reflexivity.
  - cbn [snd] in H2. exact H2.
Qed.

(** X7: the rating of [peor_derrota] is the lowest rating among the
    opponents lost to in the analyzed games (9999 without a loss), and the
    record is either the initial record (empty name, rating 9999) or one of these losses with a
    rating below 9999. *)
Theorem agregar_peor_derrota (usr : string) (games : list partida)
    (f : option string) (m : Z) :
  let derrotas := List.filter (fun g => pasa_filtros usr f m g
                                        && es_tipo Derrota usr g) games in
  let pd := peor_derrota (agregar usr games f m) in
  snd pd = fold_right Z.min 9999 (map (rating_rival_de usr) derrotas) /\
  (pd = (""%string, 9999) \/
   (In pd (map (fun g => (rival_de usr g, rating_rival_de usr g)) derrotas)
    /\ snd pd < 9999)).
Proof.
  cbv zeta. unfold agregar.
  rewrite (fold_proyeccion peor_derrota
    (fun pd g => if (pasa_filtros usr f m g && es_tipo Derrota usr g)
                    && (rating_rival_de usr g <? snd pd)
                 then (rival_de usr g, rating_rival_de usr g) else pd))
    by apply peor_derrota_paso.
  change (peor_derrota stats_iniciales) with (""%string, 9999).
  destruct (fold_record_min (fun g => pasa_filtros usr f m g && es_tipo Derrota usr g)
              (rival_de usr) (rating_rival_de usr) games (""%string, 9999))
    as [H1 H2].
  cbv zeta in H1, H2. split.
  - rewrite H1, fold_min_right, map_map. reflexivity.
  - cbn [snd] in H2. exact H2.
Qed.

(** ** Streaks as runs of outcomes *)

Lemma racha_inicial_mismo o l : racha_inicial o (o :: l) = S (racha_inicial o l).
Proof. destruct o; reflexivity. Qed.

Lemma racha_inicial_repeat o n b : (n <= racha_inicial o (repeat o n ++ b))%nat.
Proof.
  induction n as [|n IH]; [simpl; lia|].
  change (repeat o (S n) ++ b) with (o :: (repeat o n ++ b)).
  rewrite racha_inicial_mismo. lia.
Qed.

Lemma racha_inicial_prefijo o n l :
  (n <= racha_inicial o l)%nat -> exists b, l = repeat o n ++ b.
Proof.
  revert l. induction n as [|n IH]; intros l H; [exists l; reflexivity|].
  destruct l as [|x l]; simpl in H; [lia|].
  assert (Hx : x = o /\ (n <= racha_inicial o l)%nat)
    by (destruct x, o; simpl in H; split; (reflexivity || lia)).
  destruct Hx as [-> Hn]. destruct (IH l Hn) as [b ->]. exists b. reflexivity.
Qed.

Lemma contiene_nil o n : contiene_racha o n [] <-> n = O.
Proof.
  split.
  - intros (a & b & H). destruct n; [reflexivity|].
    destruct a; discriminate.
  - intros ->. exists [], []. reflexivity.
Qed.

Lemma contiene_cero o l : contiene_racha o O l.
Proof. exists [], l. reflexivity. Qed.

Lemma contiene_cons o n x r :
  contiene_racha o n (x :: r) <->
  contiene_racha o n r \/ (n <= racha_inicial o (x :: r))%nat.
Proof.
  split.
  - intros (a & b & H). destruct a as [|y a].
    + right. simpl in H. rewrite H. apply racha_inicial_repeat.
    + left. injection H as _ H. exists a, b. exact H.
  - intros [(a & b & H)|H].
    + exists (x :: a), b. rewrite H. reflexivity.
    + destruct (racha_inicial_prefijo o n (x :: r) H) as [b Hb].
      exists [], b. exact Hb.
Qed.

Lemma contiene_rev o n l : contiene_racha o n (rev l) <-> contiene_racha o n l.
Proof.
  assert (H : forall l, contiene_racha o n l -> contiene_racha o n (rev l)).
  { intros l' (a & b & ->). exists (rev b), (rev a).
    rewrite !rev_app_distr, rev_repeat, app_assoc. reflexivity. }
  split; [|apply H]. intros Hr. rewrite <- (rev_involutive l). apply H, Hr.
Qed.

Lemma signo_victoria r :
  (if racha_con_signo r >=? 0 then racha_con_signo r + 1 else 1) =
  Z.of_nat (racha_inicial Victoria (Victoria :: r)).
Proof.
  cbn [racha_inicial]. destruct r as [|x r]; [reflexivity|].
  destruct x; cbn [racha_con_signo racha_inicial];
    match goal with |- context [?a >=? 0] => destruct (Z.geb_spec a 0) end; lia.
Qed.

Lemma signo_derrota r :
  (if racha_con_signo r <=? 0 then racha_con_signo r - 1 else -1) =
  - Z.of_nat (racha_inicial Derrota (Derrota :: r)).
Proof.
  cbn [racha_inicial]. destruct r as [|x r]; [reflexivity|].
  destruct x; cbn [racha_con_signo racha_inicial];
    match goal with |- context [?a <=? 0] => destruct (Z.leb_spec a 0) end; lia.
Qed.


Lemma inv_runs_ext s s' r :
  nucleo s = nucleo s' -> inv_runs s r -> inv_runs s' r.
Proof.
  unfold nucleo, inv_runs. intros Hn. injection Hn.
  intros _ _ _ Hp Hg Ha _ _ _ _ _ _ _ _ _ _. rewrite <- Hp, <- Hg, <- Ha. auto.
Qed.

Lemma inv_runs_paso usr f m s g r :
  inv_runs s r ->
  inv_runs (paso usr f m s g)
    (if pasa_filtros usr f m g then clasificar (resultado_de usr g) :: r else r).
Proof.
  intros Hs. apply (inv_runs_ext (paso_nucleo usr f m s g));
    [symmetry; apply nucleo_paso|].
  destruct Hs as (Ha & Hg & Hp).
  assert (Hp0 : racha_max_p s <= 0)
    by (pose proof (proj1 (Hp O) (contiene_cero _ _)); lia).
  assert (Hg0 : 0 <= racha_max_g s)
    by (pose proof (proj1 (Hg O) (contiene_cero _ _)); lia).
  unfold paso_nucleo, pasa_filtros, rating_rival_de, resultado_de.
  destruct (descartado_por_tc f (tc_de g)); simpl; [repeat split; auto; apply Hg || apply Hp|].
  destruct (perspectiva usr g) as [[[es rv] rr] res].
  destruct (rr <? m); simpl.
  { destruct es; repeat split; auto; apply Hg || apply Hp. }
  destruct (rachas_registrar es rv rr res s) as (HV & HD & HT).
  unfold rachas in *.
  destruct (clasificar res) eqn:Hc.
  - destruct (HV eq_refl) as (A & B & C). unfold inv_runs.
    rewrite B, C, A, Ha, signo_victoria. split; [|split]; intros.
    + reflexivity.
    + rewrite contiene_cons, Hg. lia.
    + rewrite contiene_cons, Hp. simpl. lia.
  - destruct (HD eq_refl) as (A & B & C). unfold inv_runs.
    rewrite B, C, A, Ha, signo_derrota. split; [|split]; intros.
    + reflexivity.
    + rewrite contiene_cons, Hg. simpl. lia.
    + rewrite contiene_cons, Hp. lia.
  - destruct (HT eq_refl) as (A & B & C). unfold inv_runs.
    rewrite B, C, A. split; [|split]; intros.
    + reflexivity.
    + rewrite contiene_cons, Hg. simpl. lia.
    + rewrite contiene_cons, Hp. simpl. lia.
Qed.

Lemma inv_runs_fold usr f m games s r :
  inv_runs s r ->
  inv_runs (fold_left (paso usr f m) games s)
    (rev (resultados_en_orden usr f m games) ++ r).
Proof.
  unfold resultados_en_orden, analizadas.
  revert s r. induction games as [|g gs IH]; intros s r Hs; simpl; [exact Hs|].
  pose proof (inv_runs_paso usr f m s g r Hs) as H1.
  destruct (pasa_filtros usr f m g); simpl.
  - rewrite <- app_assoc. apply IH, H1.
  - apply IH, H1.
Qed.

Lemma agregar_inv_runs usr games f m :
  inv_runs (agregar usr games f m) (rev (resultados_en_orden usr f m games)).
Proof.
  rewrite <- (app_nil_r (rev _)). apply inv_runs_fold.
  unfold inv_runs. simpl. split; [reflexivity|].
  split; intros n; rewrite contiene_nil; lia.
Qed.

(** X8: [racha_max_g] is the length of the longest run of wins among the
    analyzed games, [- racha_max_p] the length of the longest run of losses,
    and [racha_actual] the signed length of the run the last games end with.
    *)
Theorem agregar_rachas (usr : string) (games : list partida)
    (f : option string) (m : Z) :
  let s := agregar usr games f m in
  let outs := resultados_en_orden usr f m games in
  (forall n, contiene_racha Victoria n outs <-> Z.of_nat n <= racha_max_g s) /\
  (forall n, contiene_racha Derrota n outs <-> racha_max_p s <= - Z.of_nat n) /\
  racha_actual s = racha_con_signo (rev outs).
Proof.
  cbv zeta. destruct (agregar_inv_runs usr games f m) as (Ha & Hg & Hp).
  split; [|split]; [intros n; rewrite <- contiene_rev; apply Hg
                  | intros n; rewrite <- contiene_rev; apply Hp | exact Ha].
Qed.

(** ** Half-moves *)

Lemma total_jugadas_paso usr f m s g :
  total_jugadas (paso usr f m s g) = total_jugadas s +
    (if pasa_filtros usr f m g then jugadas_leidas read_game g else 0).
Proof.
  unfold paso, pasa_filtros, rating_rival_de, jugadas_leidas.
  destruct (descartado_por_tc f (tc_de g)); simpl; [lia|].
  destruct (perspectiva usr g) as [[[es rv] rr] res]. simpl.
  destruct (rr <? m); simpl; [destruct es; simpl; lia|].
  unfold analizar_pgn.
  assert (E : total_jugadas (registrar_resultado es rv rr res
                (registrar_rival rv rr (contar_color es s))) = total_jugadas s)
    by (unfold registrar_resultado, registrar_rival, contar_color; por_casos).
  destruct (pgn g) as [t|]; [destruct (read_game t) as [| |movs]|]; simpl;
    rewrite ?E; try lia.
  unfold registrar_apertura, registrar_extremos. cbv zeta.
  repeat case_match; simpl; rewrite E; lia.
Qed.

Lemma fold_suma (p : partida -> bool) (v : partida -> Z) games n0 :
  fold_left (fun n g => n + (if p g then v g else 0)) games n0 =
  n0 + fold_right Z.add 0 (map v (List.filter p games)).
Proof.
  revert n0. induction games as [|g gs IH]; intros n0; simpl; [lia|].
  rewrite IH. destruct (p g); simpl; lia.
Qed.

Lemma total_jugadas_suma usr games f m :
  total_jugadas (agregar usr games f m) =
  fold_right Z.add 0 (map (jugadas_leidas read_game) (analizadas usr f m games)).
Proof.
  unfold agregar, analizadas.
  rewrite (fold_proyeccion total_jugadas
    (fun n g => n + (if pasa_filtros usr f m g then jugadas_leidas read_game g else 0)))
    by apply total_jugadas_paso.
  rewrite fold_suma. reflexivity.
Qed.

(** X9: [total_jugadas] is the sum of the main-line lengths read from the
    transcripts of the analyzed games. *)
Theorem agregar_total_jugadas (usr : string) (games : list partida)
    (f : option string) (m : Z) :
  total_jugadas (agregar usr games f m) =
  fold_right Z.add 0 (map (jugadas_leidas read_game) (analizadas usr f m games)).
Proof. apply total_jugadas_suma. Qed.

(** ** Sums of counters *)

Lemma suma_vacia : suma ∅ = 0.
Proof. unfold suma. apply map_fold_empty. Qed.

Lemma suma_insert_nuevo k v (c : gmap string Z) :
  c !! k = None -> suma (<[k := v]> c) = v + suma c.
Proof.
  intros Hk. unfold suma. apply map_fold_insert_L; [|exact Hk].
  intros. lia.
Qed.

Lemma suma_delete k v (c : gmap string Z) :
  c !! k = Some v -> suma c = v + suma (delete k c).
Proof.
  intros Hk. rewrite <- (insert_delete_id c k v) at 1 by exact Hk.
  apply suma_insert_nuevo, lookup_delete_eq.
Qed.

Lemma suma_insert k v (c : gmap string Z) :
  suma (<[k := v]> c) = suma c - default 0 (c !! k) + v.
Proof.
  rewrite <- insert_delete_eq, suma_insert_nuevo by apply lookup_delete_eq.
  destruct (c !! k) as [x|] eqn:Hk; simpl.
  - rewrite (suma_delete k x c Hk). lia.
  - rewrite delete_id by exact Hk. lia.
Qed.

Lemma lookup_incr_eq k (c : gmap string Z) :
  incr k c !! k = Some (default 0 (c !! k) + 1).
Proof. unfold incr. apply lookup_insert_eq. Qed.

Lemma lookup_incr_ne k k' (c : gmap string Z) :
  k <> k' -> incr k c !! k' = c !! k'.
Proof. intros H. unfold incr. apply lookup_insert_ne, H. Qed.

Lemma suma_incr k c : suma (incr k c) = suma c + 1.
Proof. unfold incr. rewrite suma_insert. lia. Qed.

(** ** Draw types *)

Lemma fold_incr_lookup (p : partida -> bool) (clave : partida -> string) games
    (t0 : gmap string Z) k :
  default 0 (fold_left (fun t g => if p g then incr (clave g) t else t) games t0 !! k) =
  default 0 (t0 !! k) + cuantas (fun g => p g && String.eqb (clave g) k) games.
Proof.
  unfold cuantas. revert t0. induction games as [|g gs IH]; intros t0; simpl; [lia|].
  rewrite IH. destruct (p g); simpl; [|lia].
  unfold incr. destruct (String.eqb_spec (clave g) k) as [<-|Hne]; simpl.
  - rewrite lookup_insert_eq. simpl. lia.
  - rewrite lookup_insert_ne by congruence. lia.
Qed.

Lemma fold_incr_suma (p : partida -> bool) (clave : partida -> string) games
    (t0 : gmap string Z) :
  suma (fold_left (fun t g => if p g then incr (clave g) t else t) games t0) =
  suma t0 + cuantas p games.
Proof.
  unfold cuantas. revert t0. induction games as [|g gs IH]; intros t0; simpl; [lia|].
  rewrite IH. destruct (p g); simpl; [rewrite suma_incr|]; lia.
Qed.

Lemma fold_incr_positivo (p : partida -> bool) (clave : partida -> string) games
    (t0 : gmap string Z) :
  (forall k v, t0 !! k = Some v -> 0 < v) ->
  forall k v,
  fold_left (fun t g => if p g then incr (clave g) t else t) games t0 !! k = Some v ->
  0 < v.
Proof.
  revert t0. induction games as [|g gs IH]; intros t0 H0; simpl; [exact H0|].
  apply IH. destruct (p g); [|exact H0].
  intros k v. unfold incr. destruct (String.eqb_spec (clave g) k) as [<-|Hne].
  - rewrite lookup_insert_eq. intros [= <-].
    destruct (t0 !! clave g) eqn:E; simpl; [pose proof (H0 _ _ E)|]; lia.
  - rewrite lookup_insert_ne by congruence. apply H0.
Qed.

(** X10: [tablas_por_tipo] counts, for each result code, the analyzed
    draws with that code; its counts add up to [tablas], and it holds only
    draw codes with positive counts. *)
Theorem agregar_tablas_por_tipo (usr : string) (games : list partida)
    (f : option string) (m : Z) :
  let s := agregar usr games f m in
  (forall k, default 0 (tablas_por_tipo s !! k) =
     cuantas (fun g => pasa_filtros usr f m g && es_tipo Tablas usr g
                       && String.eqb (resultado_de usr g) k) games) /\
  suma (tablas_por_tipo s) = tablas s /\
  (forall k v, tablas_por_tipo s !! k = Some v -> clasificar k = Tablas /\ 0 < v).
Proof.
  cbv zeta.
  assert (E : tablas_por_tipo (agregar usr games f m) =
    fold_left (fun t g => if pasa_filtros usr f m g && es_tipo Tablas usr g
                          then incr (resultado_de usr g) t else t) games ∅).
  { unfold agregar.
    rewrite (fold_proyeccion tablas_por_tipo
      (fun t g => if pasa_filtros usr f m g && es_tipo Tablas usr g
                  then incr (resultado_de usr g) t else t))
      by apply tablas_por_tipo_paso.
    reflexivity. }
  rewrite E. split; [|split].
  - intros k. rewrite fold_incr_lookup, lookup_empty. apply Z.add_0_l.
  - rewrite fold_incr_suma, suma_vacia, tablas_cuantas. lia.
  - intros k v Hk.
    assert (Hv : 0 < v)
      by (refine (fold_incr_positivo _ _ games ∅ _ k v Hk);
          intros k' v' Hc; discriminate Hc).
    split; [|exact Hv].
    pose proof (fold_incr_lookup (fun g => pasa_filtros usr f m g && es_tipo Tablas usr g)
                  (resultado_de usr) games ∅ k) as Hc.
    cbv beta in Hc. rewrite Hk, lookup_empty in Hc. simpl in Hc. unfold cuantas in Hc.
    destruct (List.filter _ games) as [|g l] eqn:Hf; [simpl in Hc; lia|].
    assert (Hg : In g (List.filter (fun g => pasa_filtros usr f m g
                 && es_tipo Tablas usr g && String.eqb (resultado_de usr g) k) games))
      by (rewrite Hf; left; reflexivity).
    apply filter_In in Hg as [_ Hg].
    apply andb_prop in Hg as [Hg Hk'].
    apply andb_prop in Hg as [_ Ht].
    apply String.eqb_eq in Hk'. subst k.
    unfold es_tipo in Ht. destruct (clasificar (resultado_de usr g)); congruence.
Qed.

(** ** Openings *)


Lemma inv_aperturas_ext s s' :
  aperturas_de s = aperturas_de s' -> inv_aperturas s -> inv_aperturas s'.
Proof.
  unfold aperturas_de, inv_aperturas. intros H. injection H as H1 H2.
  rewrite <- H1, <- H2. auto.
Qed.

Lemma inv_aperturas_registrar r movs s :
  inv_aperturas s -> inv_aperturas (registrar_apertura r movs s).
Proof.
  intros [Ha Hb]. unfold registrar_apertura.
  set (k := clave_apertura movs).
  destruct (String.eqb_spec k "") as [Hk|Hk]; [split; assumption|].
  unfold inv_aperturas. cbv zeta. cbn [aperturas aperturas_con_resultados set_aperturas
                 set_aperturas_con_resultados].
  set (d := aperturas_con_resultados s).
  set (d1 := if String.eqb r "win" then
               <[k := mkAperturaStats (ap_ganadas (default apertura_vacia (d !! k)) + 1)
                        (ap_total (default apertura_vacia (d !! k)))]> d else d).
  assert (Hd1 : ap_total (default apertura_vacia (d1 !! k)) =
                ap_total (default apertura_vacia (d !! k)) /\
                ap_ganadas (default apertura_vacia (d1 !! k)) <=
                ap_ganadas (default apertura_vacia (d !! k)) + 1 /\
                0 <= ap_ganadas (default apertura_vacia (d1 !! k))).
  { assert (B : 0 <= ap_ganadas (default apertura_vacia (d !! k)) <=
                ap_total (default apertura_vacia (d !! k))).
    { destruct (d !! k) as [x|] eqn:E; simpl; [|lia].
      destruct (Hb k x E) as (_ & ? & _). lia. }
    unfold d1. destruct (String.eqb r "win"); simpl;
      [rewrite lookup_insert_eq; simpl|]; lia. }
  assert (Hd1b : ap_ganadas (default apertura_vacia (d1 !! k)) <=
                 ap_total (default apertura_vacia (d1 !! k)) + 1).
  { assert (B : 0 <= ap_ganadas (default apertura_vacia (d !! k)) <=
                ap_total (default apertura_vacia (d !! k))).
    { destruct (d !! k) as [x|] eqn:E; simpl; [|lia].
      destruct (Hb k x E) as (_ & ? & _). lia. }
    unfold d1. destruct (String.eqb r "win"); simpl;
      [rewrite lookup_insert_eq; simpl|]; lia. }
  assert (Hne : forall k', k' <> k -> d1 !! k' = d !! k').
  { intros k' Hk'. unfold d1. destruct (String.eqb r "win");
      [rewrite lookup_insert_ne by congruence|]; reflexivity. }
  assert (Htot : ap_total (default apertura_vacia (d !! k)) >= 0).
  { destruct (d !! k) as [x|] eqn:E; simpl; [|lia].
    destruct (Hb k x E) as (_ & ? & ?). lia. }
  split.
  - intros k'. unfold incr. destruct (String.eqb_spec k' k) as [->|Hk'].
    + rewrite !lookup_insert_eq. simpl. f_equal.
      destruct Hd1 as [-> _]. rewrite (Ha k). unfold d.
      destruct (aperturas_con_resultados s !! k); reflexivity.
    + rewrite !lookup_insert_ne by congruence. rewrite Hne by exact Hk'. apply Ha.
  - intros k' x. destruct (String.eqb_spec k' k) as [->|Hk'].
    + rewrite lookup_insert_eq. intros [= <-]. simpl. destruct Hd1 as (E1 & _ & E3).
      split; [exact Hk|]. rewrite E1. lia.
    + rewrite lookup_insert_ne by congruence. rewrite Hne by exact Hk'. apply Hb.
Qed.

Lemma aperturas_analizar_pgn r g s s' :
  analizar_pgn r g s = Some s' -> inv_aperturas s -> inv_aperturas s'.
Proof.
  unfold analizar_pgn. intros H Hs.
  destruct (pgn g) as [t|]; [destruct (read_game t) as [| |movs]|];
    try discriminate; injection H as <-; try exact Hs.
  apply inv_aperturas_registrar.
  apply (inv_aperturas_ext s); [symmetry; apply aperturas_registrar_extremos|exact Hs].
Qed.

Lemma inv_aperturas_paso usr f m s g :
  inv_aperturas s -> inv_aperturas (paso usr f m s g).
Proof.
  intros Hs. unfold paso.
  destruct (descartado_por_tc f (tc_de g)); [exact Hs|].
  destruct (perspectiva usr g) as [[[es rv] rr] res]. simpl.
  destruct (rr <? m).
  { apply (inv_aperturas_ext s); [destruct es; reflexivity|exact Hs]. }
  assert (H1 : inv_aperturas (registrar_resultado es rv rr res
                 (registrar_rival rv rr (contar_color es s))))
    by (apply (inv_aperturas_ext s); [symmetry; apply aperturas_registrar|exact Hs]).
  destruct (analizar_pgn res g _) as [s2|] eqn:Ha; [|exact H1].
  apply (inv_aperturas_ext s2); [reflexivity|].
  exact (aperturas_analizar_pgn _ _ _ _ Ha H1).
Qed.

(** X11: [aperturas] holds the same keys as [aperturas_con_resultados]
    with its totals, and every entry of the latter has a non-empty key, at
    least one game and at most as many wins as games. *)
Theorem agregar_aperturas (usr : string) (games : list partida)
    (f : option string) (m : Z) :
  let s := agregar usr games f m in
  (forall k, aperturas s !! k = ap_total <$> aperturas_con_resultados s !! k) /\
  (forall k r, aperturas_con_resultados s !! k = Some r ->
     k <> ""%string /\ 0 <= ap_ganadas r <= ap_total r /\ 1 <= ap_total r).
Proof.
  cbv zeta. unfold agregar.
  assert (H : forall games s, inv_aperturas s ->
                inv_aperturas (fold_left (paso usr f m) games s)).
  { intros gs. induction gs as [|g gs IH]; intros s Hs; simpl; [exact Hs|].
    apply IH, inv_aperturas_paso, Hs. }
  apply H. split; intros k; [reflexivity|]. intros r Hr. discriminate Hr.
Qed.

(** ** Time controls and weekdays *)

Lemma categorias_registrar_ext tc r g s s' :
  categorias s = categorias s' ->
  categorias (registrar_categorias tc r g s) = categorias (registrar_categorias tc r g s').
Proof.
  unfold categorias. intros H. injection H as H1 H2 H3.
  unfold registrar_categorias. simpl. rewrite H1, H2, H3. reflexivity.
Qed.

Lemma categorias_analizar_pgn r g s s' :
  analizar_pgn r g s = Some s' -> categorias s' = categorias s.
Proof.
  unfold analizar_pgn, registrar_extremos, registrar_apertura. por_casos.
Qed.

Lemma categorias_paso usr f m s g :
  categorias (paso usr f m s g) =
  if pasa_filtros usr f m g && negb (falla_lectura read_game g)
  then categorias (registrar_categorias (tc_de g) (resultado_de usr g) g s)
  else categorias s.
Proof.
  unfold paso, pasa_filtros, rating_rival_de, resultado_de.
  destruct (descartado_por_tc f (tc_de g)); simpl; [reflexivity|].
  destruct (perspectiva usr g) as [[[es rv] rr] res]. simpl.
  destruct (rr <? m); simpl; [destruct es; reflexivity|].
  pose proof (categorias_registrar es rv rr res s) as E.
  destruct (analizar_pgn res g _) as [s2|] eqn:Ha.
  - assert (Hf : falla_lectura read_game g = false).
    { revert Ha. unfold falla_lectura, analizar_pgn.
      destruct (pgn g) as [t|]; [|reflexivity].
      destruct (read_game t); discriminate || reflexivity. }
    apply categorias_analizar_pgn in Ha.
    rewrite Hf. simpl. apply categorias_registrar_ext. congruence.
  - assert (Hf : falla_lectura read_game g = true).
    { revert Ha. unfold falla_lectura, analizar_pgn.
      destruct (pgn g) as [t|]; [|discriminate].
      destruct (read_game t); discriminate || reflexivity. }
    rewrite Hf. simpl. exact E.
Qed.


Lemma inv_dias_ext s s' n :
  categorias s = categorias s' -> inv_dias s n -> inv_dias s' n.
Proof.
  unfold categorias, inv_dias. intros H. injection H as H1 H2 H3.
  rewrite <- H1, <- H2, <- H3. auto.
Qed.

Lemma inv_dias_registrar tc r g s n :
  inv_dias s n -> inv_dias (registrar_categorias tc r g s) (n + 1).
Proof.
  intros (Hd & Ht & Hj). unfold inv_dias, registrar_categorias. cbv zeta.
  cbn [time_controls juegos_por_dia resultados_dia set_time_controls
       set_juegos_por_dia set_resultados_dia].
  set (dia := dia_semana (default 0 (end_time g))).
  split; [|split].
  - intros d. destruct (String.eqb_spec d dia) as [->|Hne].
    + rewrite lookup_incr_eq, lookup_insert_eq. simpl. rewrite suma_incr, <- Hd. lia.
    + rewrite lookup_incr_ne, lookup_insert_ne by congruence. apply Hd.
  - rewrite suma_incr, Ht. reflexivity.
  - rewrite suma_incr, Hj. reflexivity.
Qed.

(** X12: for each day, [juegos_por_dia] is the sum of that day's
    [resultados_dia] counts, and [time_controls] and [juegos_por_dia] both add
    up to the number of analyzed games whose transcript is read without an
    exception. *)
Theorem agregar_dias (usr : string) (games : list partida)
    (f : option string) (m : Z) :
  let s := agregar usr games f m in
  let contadas := cuantas (fun g => pasa_filtros usr f m g
                                    && negb (falla_lectura read_game g)) games in
  (forall d, default 0 (juegos_por_dia s !! d) =
             suma (default ∅ (resultados_dia s !! d))) /\
  suma (time_controls s) = contadas /\ suma (juegos_por_dia s) = contadas.
Proof.
  cbv zeta. unfold agregar, cuantas.
  assert (H : forall games s n, inv_dias s n ->
    inv_dias (fold_left (paso usr f m) games s)
      (n + Z.of_nat (length (List.filter (fun g => pasa_filtros usr f m g
                                 && negb (falla_lectura read_game g)) games)))).
  { intros gs. induction gs as [|g gs IH]; intros s n Hs; simpl; [rewrite Z.add_0_r; exact Hs|].
    pose proof (categorias_paso usr f m s g) as E.
    destruct (pasa_filtros usr f m g && negb (falla_lectura read_game g)); simpl.
    - replace (n + Z.of_nat (S (length (List.filter _ gs))))
        with ((n + 1) + Z.of_nat (length (List.filter (fun g => pasa_filtros usr f m g
                                 && negb (falla_lectura read_game g)) gs))) by lia.
      apply IH. apply (inv_dias_ext (registrar_categorias (tc_de g) (resultado_de usr g) g s));
        [symmetry; exact E|]. apply inv_dias_registrar, Hs.
    - apply IH. apply (inv_dias_ext s); [symmetry; exact E|exact Hs]. }
  pose proof (H games stats_iniciales 0) as H0.
  rewrite Z.add_0_l in H0. apply H0.
  unfold inv_dias. simpl. rewrite !suma_vacia. split; [|auto].
  intros d. rewrite !lookup_empty. simpl. symmetry. apply suma_vacia.
Qed.

(** ** The weekday histogram *)

Lemma juegos_por_dia_ausente usr f m games k :
  (forall t, dia_semana t <> k) ->
  juegos_por_dia (agregar usr games f m) !! k = None.
Proof.
  intros Hk. unfold agregar.
  assert (H : forall games s, juegos_por_dia s !! k = None ->
                juegos_por_dia (fold_left (paso usr f m) games s) !! k = None).
  { intros gs. induction gs as [|g gs IH]; intros s Hs; simpl; [exact Hs|].
    apply IH. pose proof (categorias_paso usr f m s g) as E.
    unfold categorias in E.
    destruct (pasa_filtros usr f m g && negb (falla_lectura read_game g)).
    - injection E as _ E _. rewrite E. unfold registrar_categorias. simpl.
      rewrite lookup_incr_ne by apply Hk. exact Hs.
    - injection E as _ E _. rewrite E. exact Hs. }
  apply H. apply lookup_empty.
Qed.

(** X13: when the day names produced for the timestamps are never among
    the Spanish names the method looks up, the histogram of an analysis shows
    the no-data line. *)
Theorem histograma_sin_datos (escala : Z -> Z -> nat) (usr : string)
    (games : list partida) (f : option string) (m : Z) :
  (forall t, ~ In (dia_semana t) nombres_dias) ->
  histograma_dias escala (Some (agregar usr games f m)) = HistSinDatos.
Proof.
  intros Hd. unfold histograma_dias.
  rewrite (map_ext_in (fun n => (n, default 0 (juegos_por_dia (agregar usr games f m) !! n)))
             (fun n => (n, 0)) nombres_dias).
  - reflexivity.
  - intros n Hn. rewrite juegos_por_dia_ausente; [reflexivity|].
    intros t Ht. apply (Hd t). rewrite Ht. exact Hn.
Qed.

(** ** Advice *)

Lemma en_recomendaciones x s :
  In x (recomendaciones (Some s)) <->
  partidas_analizadas s <> 0 /\
  (x = (if winrate_global s <? 50 then RecWinrateBajo else RecWinrateSolido) \/
   In x (rec_colores s) \/ (x = RecRachas /\ racha_max_p s < -3) \/
   In x (rec_longitud s)).
Proof.
  unfold recomendaciones. destruct (Z.eqb_spec (partidas_analizadas s) 0) as [H0|H0].
  - simpl. tauto.
  - simpl. rewrite !in_app_iff. destruct (Z.ltb_spec (racha_max_p s) (-3)) as [Hr|Hr]; simpl.
    + split; [intros H; split; [exact H0|]; intuition congruence|].
      intros [_ H]; intuition congruence.
    + split; [intros H; split; [exact H0|]; intuition|].
      intros [_ H]; intuition (try congruence; try lia).
Qed.

Lemma rec_colores_forma x s :
  In x (rec_colores s) -> exists c, x = RecColor c.
Proof.
  unfold rec_colores. repeat case_match; simpl; intros Hin; intuition eauto.
Qed.

Lemma rec_longitud_forma x s :
  In x (rec_longitud s) -> exists p, x = RecCortas p \/ x = RecLargas p.
Proof.
  unfold rec_longitud. repeat case_match; simpl; intros Hin; intuition eauto.
Qed.

Lemma promedio_menor t n q : 0 < n -> (t / n < q <-> t < q * n).
Proof.
  intros Hn. split; intros H.
  - destruct (Z.lt_ge_cases t (q * n)) as [|Hge]; [assumption|].
    assert (q <= t / n) by (apply Z.div_le_lower_bound; lia). lia.
  - apply Z.div_lt_upper_bound; lia.
Qed.

(** X14: the low win-rate advice is given exactly when some game is
    analyzed and fewer than half of them are wins, the solid win-rate advice
    exactly when some game is analyzed and at least half are wins. *)
Theorem recomendacion_winrate (usr : string) (games : list partida)
    (f : option string) (m : Z) :
  let n := cuantas (pasa_filtros usr f m) games in
  let w := cuantas (fun g => pasa_filtros usr f m g && es_tipo Victoria usr g) games in
  let recs := recomendaciones (Some (agregar usr games f m)) in
  (In RecWinrateBajo recs <-> 0 < n /\ 2 * w < n) /\
  (In RecWinrateSolido recs <-> 0 < n /\ n <= 2 * w).
Proof.
  cbv zeta. rewrite !en_recomendaciones.
  unfold winrate_global. rewrite analizadas_cuantas, ganadas_cuantas.
  set (n := cuantas (pasa_filtros usr f m) games).
  set (w := cuantas (fun g => pasa_filtros usr f m g && es_tipo Victoria usr g) games).
  assert (Hn : 0 <= n) by apply cuantas_no_negativa.
  set (s := agregar usr games f m).
  assert (Hx : forall x, x = RecWinrateBajo \/ x = RecWinrateSolido ->
     ~ (In x (rec_colores s) \/ (x = RecRachas /\ racha_max_p s < -3) \/
        In x (rec_longitud s))).
  { intros x Hx [H|[[H _]|H]].
    - destruct (rec_colores_forma _ _ H) as [c ->]. intuition discriminate.
    - subst x. intuition discriminate.
    - destruct (rec_longitud_forma _ _ H) as [p [-> | ->]]; intuition discriminate. }
  pose proof (Hx RecWinrateBajo (or_introl eq_refl)) as HB.
  pose proof (Hx RecWinrateSolido (or_intror eq_refl)) as HS.
  destruct (Z.gtb_spec n 0) as [Hp|Hp].
  - pose proof (promedio_menor (w * 100) n 50 Hp) as Hm.
    destruct (Z.ltb_spec (w * 100 / n) 50) as [Hl|Hl].
    + apply Hm in Hl. split; split; intros Hi.
      * split; lia.
      * split; [lia | left; reflexivity].
      * exfalso. destruct Hi as [_ [Hi|Hi]]; [discriminate | exact (HS Hi)].
      * lia.
    + assert (Hge : ~ (w * 100 < 50 * n)) by (intros Hc; apply Hm in Hc; lia).
      split; split; intros Hi.
      * exfalso. destruct Hi as [_ [Hi|Hi]]; [discriminate | exact (HB Hi)].
      * lia.
      * split; lia.
      * split; [lia | left; reflexivity].
  - assert (Hn0 : n = 0) by lia. split; split; intros Hi; lia.
Qed.


(** X15: the colour advice names black when the white win rate exceeds the
    black one by more than 10 points and white in the opposite case, and is
    given only when games were analyzed and both colours were played. *)
Theorem recomendacion_color (s : stats) (c : string) :
  let wb := blancas_g s * 100 / blancas_partidas s in
  let wn := negras_g s * 100 / negras_partidas s in
  In (RecColor c) (recomendaciones (Some s)) <->
  partidas_analizadas s <> 0 /\ 0 < blancas_partidas s /\ 0 < negras_partidas s /\
  ((c = "negras"%string /\ wn + 10 < wb) \/ (c = "blancas"%string /\ wb + 10 < wn)).
Proof.
  cbv zeta. rewrite en_recomendaciones.
  assert (Hr : ~ (RecColor c = RecRachas /\ racha_max_p s < -3))
    by (intros [Hc _]; discriminate).
  assert (Hl : ~ In (RecColor c) (rec_longitud s))
    by (intros Hc; destruct (rec_longitud_forma _ _ Hc) as [p [Hp|Hp]]; discriminate).
  assert (Hw : RecColor c <>
               (if winrate_global s <? 50 then RecWinrateBajo else RecWinrateSolido))
    by (destruct (winrate_global s <? 50); discriminate).
  unfold rec_colores.
  set (wb := blancas_g s * 100 / blancas_partidas s).
  set (wn := negras_g s * 100 / negras_partidas s).
  destruct (Z.gtb_spec (blancas_partidas s) 0) as [Hb|Hb];
  destruct (Z.gtb_spec (negras_partidas s) 0) as [Hn|Hn]; simpl;
    try (split; [intros [_ Hi]; intuition | intros Hi; lia]).
  destruct (Z.gtb_spec (Z.abs (wb - wn)) 10) as [Ha|Ha].
  - destruct (Z.gtb_spec wb wn) as [Hg|Hg]; simpl.
    + split.
      * intros [H0 Hi]. destruct Hi as [Hi|[[Hi|[]]|Hi]]; [congruence| |tauto].
        injection Hi as <-. repeat split; try lia. left. split; [reflexivity|lia].
      * intros (H0 & _ & _ & [[-> Hc]|[-> Hc]]); [|lia].
        split; [exact H0|]. right; left; left; reflexivity.
    + split.
      * intros [H0 Hi]. destruct Hi as [Hi|[[Hi|[]]|Hi]]; [congruence| |tauto].
        injection Hi as <-. repeat split; try lia. right. split; [reflexivity|lia].
      * intros (H0 & _ & _ & [[-> Hc]|[-> Hc]]); [lia|].
        split; [exact H0|]. right; left; left; reflexivity.
  - simpl. split; [intros [_ Hi]; intuition | intros Hi; lia].
Qed.

Lemma no_es_rachas_otra x s :
  x = RecRachas ->
  ~ (x = (if winrate_global s <? 50 then RecWinrateBajo else RecWinrateSolido) \/
     In x (rec_colores s) \/ In x (rec_longitud s)).
Proof.
  intros -> [Hi|[Hi|Hi]].
  - destruct (winrate_global s <? 50); discriminate.
  - destruct (rec_colores_forma _ _ Hi) as [c Hc]; discriminate.
  - destruct (rec_longitud_forma _ _ Hi) as [p [Hp|Hp]]; discriminate.
Qed.

Lemma longitud_resultados usr f m games :
  Z.of_nat (length (resultados_en_orden usr f m games)) =
  partidas_analizadas (agregar usr games f m).
Proof.
  rewrite analizadas_cuantas. unfold resultados_en_orden, analizadas, cuantas.
  rewrite length_map. reflexivity.
Qed.

(** X16: the losing-streak advice is given exactly when the analyzed games
    contain four losses in a row. *)
Theorem recomendacion_rachas (usr : string) (games : list partida)
    (f : option string) (m : Z) :
  In RecRachas (recomendaciones (Some (agregar usr games f m))) <->
  contiene_racha Derrota 4 (resultados_en_orden usr f m games).
Proof.
  destruct (agregar_inv_runs usr games f m) as (_ & _ & Hp).
  specialize (Hp 4%nat). rewrite contiene_rev in Hp.
  pose proof (no_es_rachas_otra RecRachas (agregar usr games f m) eq_refl) as Ho.
  rewrite en_recomendaciones. split.
  - intros [_ [Hi|[Hi|[[_ Hlt]|Hi]]]];
      [exfalso; tauto | exfalso; tauto | apply Hp; simpl; lia | exfalso; tauto].
  - intros Hc. split.
    + rewrite <- longitud_resultados. destruct Hc as (a & b & ->).
      rewrite !length_app, repeat_length. lia.
    + right; right; left. split; [reflexivity|]. apply Hp in Hc. simpl in Hc. lia.
Qed.

Lemma en_recomendaciones_longitud x s :
  (exists p, x = RecCortas p \/ x = RecLargas p) ->
  In x (recomendaciones (Some s)) <->
  partidas_analizadas s <> 0 /\ In x (rec_longitud s).
Proof.
  intros (p & Hx). rewrite en_recomendaciones.
  assert (Hw : x <> (if winrate_global s <? 50 then RecWinrateBajo else RecWinrateSolido))
    by (destruct (winrate_global s <? 50); destruct Hx; subst; discriminate).
  assert (Hc : ~ In x (rec_colores s))
    by (intros Hi; destruct (rec_colores_forma _ _ Hi); destruct Hx; subst; discriminate).
  assert (Hr : x <> RecRachas) by (destruct Hx; subst; discriminate).
  tauto.
Qed.

(** X17: the short-game advice is given, with the mean length, exactly
    when the mean number of half-moves per analyzed game is below 25, and the
    long-game advice exactly when it is at least 41. *)
Theorem recomendacion_longitud (usr : string) (games : list partida)
    (f : option string) (m : Z) :
  let n := cuantas (pasa_filtros usr f m) games in
  let t := fold_right Z.add 0 (map (jugadas_leidas read_game) (analizadas usr f m games)) in
  let recs := recomendaciones (Some (agregar usr games f m)) in
  (forall p, In (RecCortas p) recs <-> 0 < n /\ t < 25 * n /\ p = t / n) /\
  (forall p, In (RecLargas p) recs <-> 0 < n /\ 41 * n <= t /\ p = t / n).
Proof.
  cbv zeta.
  split; intros p; rewrite en_recomendaciones_longitud by eauto;
    unfold rec_longitud; rewrite analizadas_cuantas, total_jugadas_suma;
    set (n := cuantas (pasa_filtros usr f m) games);
    set (t := fold_right Z.add 0 (map (jugadas_leidas read_game) (analizadas usr f m games)));
    (destruct (Z.gtb_spec n 0) as [Hn|Hn]; [|simpl; lia]);
    pose proof (promedio_menor t n 25 Hn) as H25;
    pose proof (promedio_menor t n 41 Hn) as H41.
  - destruct (Z.ltb_spec (t / n) 25) as [Hl|Hl].
    + simpl. split.
      * intros [_ [Hi|[]]]. injection Hi as <-. apply H25 in Hl. lia.
      * intros (_ & _ & ->). split; [lia | left; reflexivity].
    + assert (~ t < 25 * n) by (intros Hc; apply H25 in Hc; lia).
      destruct (Z.gtb_spec (t / n) 40); simpl; split;
        try (intros [_ [Hi|[]]]; discriminate); intros Hc; lia.
  - destruct (Z.ltb_spec (t / n) 25) as [Hl|Hl].
    + apply H25 in Hl. simpl. split; [intros [_ [Hi|[]]]; discriminate | intros Hc; lia].
    + destruct (Z.gtb_spec (t / n) 40) as [Hg|Hg]; simpl.
      * assert (~ t < 41 * n) by (intros Hc; apply H41 in Hc; lia). split.
        -- intros [_ [Hi|[]]]. injection Hi as <-. lia.
        -- intros (_ & _ & ->). split; [lia | left; reflexivity].
      * assert (t < 41 * n) by (apply H41; lia).
        split; [intros [_ []] | intros Hc; lia].
Qed.

End Cobertura.

(** ** Choosing a game *)






Section Red.

Variable get_archivos : string -> option (list string).
Variable get_mes : string -> option (list partida).

Lemma descargar_exito (juegos : string -> list partida) meses ps :
  (forall v, In v meses -> tiene_barra v = true /\ get_mes v = Some (juegos v)) ->
  descargar get_mes meses ps = Terminada true (ps ++ concat (map juegos meses)).
Proof.
  revert ps. induction meses as [|u us IH]; intros ps Hm; simpl.
  - rewrite app_nil_r. reflexivity.
  - destruct (Hm u (or_introl eq_refl)) as [Hb Hu]. rewrite Hb, Hu. simpl.
    rewrite IH by (intros v Hv; apply Hm; right; exact Hv).
    rewrite app_assoc. reflexivity.
Qed.

Lemma descargar_prefijo (juegos : string -> list partida) pre rest ps :
  (forall v, In v pre -> tiene_barra v = true /\ get_mes v = Some (juegos v)) ->
  descargar get_mes (pre ++ rest) ps =
  descargar get_mes rest (ps ++ concat (map juegos pre)).
Proof.
  revert ps. induction pre as [|x xs IH]; intros ps Hm; simpl.
  - rewrite app_nil_r. reflexivity.
  - destruct (Hm x (or_introl eq_refl)) as [Hb Hx]. rewrite Hb, Hx. simpl.
    rewrite IH by (intros v Hv; apply Hm; right; exact Hv).
    rewrite app_assoc. reflexivity.
Qed.

(** X21: when the archive list downloads, and every selected month has a
    URL with a ['/'] and downloads, [obtener_partidas] returns [True] and
    appends the games of these months, in order, to those already loaded. *)
Theorem obtener_partidas_exito (a : analizador) (meses : Z)
    (archivos : list string) (juegos : string -> list partida) :
  get_archivos (user a) = Some archivos ->
  (forall v, In v (rebanada_desde (- meses) archivos) ->
     tiene_barra v = true /\ get_mes v = Some (juegos v)) ->
  obtener_partidas get_archivos get_mes a meses =
  Obtenidas true
    (mkAnalizador (user a)
       (partidas a ++ concat (map juegos (rebanada_desde (- meses) archivos)))
       (stats_de a)).
Proof.
  intros Ha Hm. unfold obtener_partidas. rewrite Ha.
  rewrite (descargar_exito juegos) by exact Hm. reflexivity.
Qed.

(** X22: when a selected month with a ['/'] in its URL fails to download,
    [obtener_partidas] returns [False], and the games of the months
    fetched before it stay appended to those already loaded. *)
Theorem obtener_partidas_falla (a : analizador) (meses : Z)
    (archivos : list string) (juegos : string -> list partida)
    (pre : list string) (u : string) (post : list string) :
  get_archivos (user a) = Some archivos ->
  rebanada_desde (- meses) archivos = pre ++ u :: post ->
  (forall v, In v pre -> tiene_barra v = true /\ get_mes v = Some (juegos v)) ->
  tiene_barra u = true ->
  get_mes u = None ->
  obtener_partidas get_archivos get_mes a meses =
  Obtenidas false
    (mkAnalizador (user a) (partidas a ++ concat (map juegos pre)) (stats_de a)).
Proof.
  intros Ha Hs Hm Hb Hu. unfold obtener_partidas. rewrite Ha, Hs.
  rewrite (descargar_prefijo juegos) by exact Hm. simpl. rewrite Hb, Hu.
  reflexivity.
Qed.

(** X25: when a selected month has a URL without a ['/'], the progress
    line of that month raises an [IndexError] that [obtener_partidas]
    does not catch; the games of the months fetched before it stay
    appended to those already loaded. *)
Theorem obtener_partidas_sin_barra (a : analizador) (meses : Z)
    (archivos : list string) (juegos : string -> list partida)
    (pre : list string) (u : string) (post : list string) :
  get_archivos (user a) = Some archivos ->
  rebanada_desde (- meses) archivos = pre ++ u :: post ->
  (forall v, In v pre -> tiene_barra v = true /\ get_mes v = Some (juegos v)) ->
  tiene_barra u = false ->
  obtener_partidas get_archivos get_mes a meses =
  ErrorIndice
    (mkAnalizador (user a) (partidas a ++ concat (map juegos pre)) (stats_de a)).
Proof.
  intros Ha Hs Hm Hb. unfold obtener_partidas. rewrite Ha, Hs.
  rewrite (descargar_prefijo juegos) by exact Hm. simpl. rewrite Hb.
  reflexivity.
Qed.

(** X23: when the archives of the account download, and its last month
    (if any) has a URL with a ['/'] and downloads with no games, the
    script builds no report and stops with the [KeyError] of
    [histograma_dias]. *)
Theorem script_sin_partidas (read_game : string -> lectura)
    (dia_semana : Z -> string) (escala : Z -> Z -> nat)
    (nombre_usuario : string) (archivos : list string) :
  get_archivos (lower nombre_usuario) = Some archivos ->
  (forall v, In v (rebanada_desde (-1) archivos) ->
     tiene_barra v = true /\ get_mes v = Some []) ->
  script read_game dia_semana get_archivos get_mes escala nombre_usuario =
  FallaHistograma false.
Proof.
  intros Ha Hm. unfold script.
  rewrite (obtener_partidas_exito (nuevo_analizador nombre_usuario) 1 archivos
             (fun _ => [])) by assumption.
  assert (Hc : forall l : list string, concat (map (fun _ => @nil partida) l) = [])
    by (intros l; induction l; simpl; auto).
  simpl. rewrite Hc. reflexivity.
Qed.

End Red.

(** X24: the months [obtener_partidas] selects are all the archives when
    [meses_a_analizar] is 0, the last [meses_a_analizar] ones (all if there
    are fewer) when it is positive, and all but the first [- meses_a_analizar]
    when it is negative. *)
Theorem rebanada_meses {A} (l : list A) (meses : Z) :
  (meses = 0 -> rebanada_desde (- meses) l = l) /\
  (0 < meses -> rebanada_desde (- meses) l = skipn (length l - Z.to_nat meses) l) /\
  (meses < 0 -> rebanada_desde (- meses) l = skipn (Z.to_nat (- meses)) l).
Proof.
  unfold rebanada_desde. split; [|split]; intros Hk.
  - subst. rewrite (proj2 (Z.ltb_ge (- 0) 0)) by lia.
    replace (Z.to_nat (Z.min (- 0) (Z.of_nat (length l)))) with 0%nat by lia.
    reflexivity.
  - destruct (Z.ltb_spec (- meses) 0); [|lia]. f_equal. lia.
  - destruct (Z.ltb_spec (- meses) 0); [lia|].
    destruct (Z.le_ge_cases (- meses) (Z.of_nat (length l))).
    + rewrite Z.min_l by lia. reflexivity.
    + rewrite Z.min_r by lia. rewrite !skipn_all2; [reflexivity|lia|lia].
Qed.

(** * Concrete runs *)

(** A reader for the examples: the transcript is its main line, one move
    per space-separated token. *)
Fixpoint partir (acc : string) (s : string) : list string :=
  match s with
  | EmptyString => if String.eqb acc "" then [] else [acc]
  | String c r =>
      if Ascii.eqb c " "%char
      then (if String.eqb acc "" then partir "" r else acc :: partir "" r)
      else partir (acc ++ String c "") r
  end.

Definition leer_demo (t : string) : lectura := LeePartida (partir "" t).

(** A reader that finds a game with an empty main line, as python-chess
    does for a transcript made of a result token only. *)
Definition leer_sin_jugadas (_ : string) : lectura := LeePartida [].

(** A reader that raises on every transcript. *)
Definition leer_con_error (_ : string) : lectura := LeeExcepcion.

(** The weekday in UTC; the epoch fell on a Thursday. *)
Definition dia_demo (t : Z) : string :=
  nth (Z.to_nat ((t / 86400 + 3) mod 7))
    ["Monday"; "Tuesday"; "Wednesday"; "Thursday"; "Friday"; "Saturday";
     "Sunday"]%string "".

Definition jugada_de (blanco negro : string) (rb rn : Z) (resb resn : string)
    (tc : string) (t : option string) : partida :=
  mkPartida (mkJugador blanco (Some rb) resb) (mkJugador negro (Some rn) resn)
    (Some tc) (Some 1700000000) t.

Definition apertura_ruy : string := "e2e4 e7e5 g1f3 b8c6 f1b5".

Definition transcript (n : nat) : string := String.concat " " (repeat "e2e4" n).

Lemma agregar_conteos_ejemplo :
  partidas_analizadas
    (agregar leer_demo dia_demo "user"
       [jugada_de "User" "bob" 1500 1400 "win" "checkmated" "600" None;
        jugada_de "carl" "user" 1300 1500 "win" "resigned" "600" None]
       None 1350) = 1.
Proof. vm_compute. reflexivity. Qed.

Lemma paso_rating_bajo_witness :
  let g := jugada_de "user" "bob" 1500 1000 "win" "checkmated" "600" None in
  descartado_por_tc None (tc_de g) = false /\
  rating_rival_de "user" g < 1200 /\
  paso leer_demo dia_demo "user" None 1200 stats_iniciales g =
  set_blancas_partidas 1 stats_iniciales.
Proof.
  intros g.
  assert (H1 : descartado_por_tc None (tc_de g) = false) by reflexivity.
  assert (H2 : rating_rival_de "user" g < 1200) by (vm_compute; reflexivity).
  split; [exact H1|]. split; [exact H2|].
  rewrite (paso_rating_bajo leer_demo dia_demo "user" None 1200
             stats_iniciales g H1 H2).
  reflexivity.
Defined.

Lemma paso_ninguno_es_usuario_witness :
  let g := jugada_de "Ana" "bob" 1500 1400 "win" "checkmated" "600" None in
  lower (username (white g)) <> "user"%string /\
  lower (username (black g)) <> "user"%string /\
  negras_partidas (paso leer_demo dia_demo "user" None 0 stats_iniciales g) = 1.
Proof.
  intros g.
  assert (H1 : lower (username (white g)) <> "user"%string) by discriminate.
  assert (H2 : lower (username (black g)) <> "user"%string) by discriminate.
  split; [exact H1|]. split; [exact H2|].
  destruct (paso_ninguno_es_usuario leer_demo dia_demo "user" None 0
              stats_iniciales g H1 H2) as (_ & _ & E).
  rewrite E. reflexivity.
Defined.

Lemma rachas_invariante_witness :
  let g := jugada_de "user" "bob" 1500 1400 "win" "checkmated" "600" None in
  descartado_por_tc None (tc_de g) = false /\
  0 <= rating_rival_de "user" g /\
  1 <= racha_actual (paso leer_demo dia_demo "user" None 0 stats_iniciales g).
Proof.
  intros g.
  assert (H1 : descartado_por_tc None (tc_de g) = false) by reflexivity.
  assert (H2 : 0 <= rating_rival_de "user" g) by (vm_compute; discriminate).
  split; [exact H1|]. split; [exact H2|].
  destruct (proj1 (rachas_invariante leer_demo dia_demo) "user" None 0
              stats_iniciales g H1 H2) as (HV & _ & _).
  exact (proj1 (HV eq_refl)).
Defined.

Lemma paso_apertura_witness :
  let g := jugada_de "user" "bob" 1500 1400 "win" "checkmated" "600"
             (Some apertura_ruy) in
  descartado_por_tc None (tc_de g) = false /\
  0 <= rating_rival_de "user" g /\
  pgn g = Some apertura_ruy /\
  leer_demo apertura_ruy = LeePartida ["e2e4"; "e7e5"; "g1f3"; "b8c6"; "f1b5"]%string /\
  aperturas (paso leer_demo dia_demo "user" None 0 stats_iniciales g) =
  {[ "e2e4 e7e5 g1f3 b8c6"%string := 1 ]}.
Proof.
  intros g.
  assert (H1 : descartado_por_tc None (tc_de g) = false) by reflexivity.
  assert (H2 : 0 <= rating_rival_de "user" g) by (vm_compute; discriminate).
  assert (H3 : pgn g = Some apertura_ruy) by reflexivity.
  assert (H4 : leer_demo apertura_ruy =
               LeePartida ["e2e4"; "e7e5"; "g1f3"; "b8c6"; "f1b5"]%string)
    by (vm_compute; reflexivity).
  split; [exact H1|]. split; [exact H2|]. split; [exact H3|].
  split; [exact H4|].
  destruct (paso_apertura leer_demo dia_demo "user" None 0 stats_iniciales g
              apertura_ruy _ H1 H2 H3 H4) as [_ Hne].
  destruct (Hne ltac:(discriminate)) as [A _].
  rewrite A. vm_compute. reflexivity.
Defined.

Lemma extremos_estrictos_witness :
  let g := jugada_de "user" "bob" 1500 1400 "win" "checkmated" "600"
             (Some apertura_ruy) in
  descartado_por_tc None (tc_de g) = false /\
  0 <= rating_rival_de "user" g /\
  pgn g = Some apertura_ruy /\
  leer_demo apertura_ruy = LeePartida ["e2e4"; "e7e5"; "g1f3"; "b8c6"; "f1b5"]%string /\
  partida_corta (paso leer_demo dia_demo "user" None 0 stats_iniciales g) =
  (apertura_ruy, 5).
Proof.
  intros g.
  assert (H1 : descartado_por_tc None (tc_de g) = false) by reflexivity.
  assert (H2 : 0 <= rating_rival_de "user" g) by (vm_compute; discriminate).
  assert (H3 : pgn g = Some apertura_ruy) by reflexivity.
  assert (H4 : leer_demo apertura_ruy =
               LeePartida ["e2e4"; "e7e5"; "g1f3"; "b8c6"; "f1b5"]%string)
    by (vm_compute; reflexivity).
  split; [exact H1|]. split; [exact H2|]. split; [exact H3|].
  split; [exact H4|].
  destruct (proj1 (extremos_estrictos leer_demo dia_demo) "user" None 0
              stats_iniciales g apertura_ruy _ H1 H2 H3 H4) as [A _].
  rewrite A. reflexivity.
Defined.

(** Two games whose transcripts have no move: neither becomes the longest
    game, which stays at its initial [("", 0)]. *)
Lemma extremos_counterexample :
  let gA := jugada_de "user" "bob" 1500 1400 "win" "checkmated" "600"
              (Some "1-0"%string) in
  let gB := jugada_de "carl" "user" 1500 1400 "win" "resigned" "600"
              (Some "0-1"%string) in
  let s := agregar leer_sin_jugadas dia_demo "user" [gA; gB] None 0 in
  leer_sin_jugadas "1-0" = LeePartida [] /\
  leer_sin_jugadas "0-1" = LeePartida [] /\
  partida_larga s = (""%string, 0) /\
  partida_larga s <> ("1-0"%string, 0).
Proof.
  vm_compute. split; [reflexivity|]. split; [reflexivity|].
  split; [reflexivity|]. discriminate.
Qed.

Lemma paso_pgn_excepcion_witness :
  let g := jugada_de "user" "bob" 1500 1400 "win" "checkmated" "600"
             (Some apertura_ruy) in
  descartado_por_tc None (tc_de g) = false /\
  0 <= rating_rival_de "user" g /\
  pgn g = Some apertura_ruy /\
  leer_con_error apertura_ruy = LeeExcepcion /\
  time_controls (paso leer_con_error dia_demo "user" None 0 stats_iniciales g)
  = ∅.
Proof.
  intros g.
  assert (H1 : descartado_por_tc None (tc_de g) = false) by reflexivity.
  assert (H2 : 0 <= rating_rival_de "user" g) by (vm_compute; discriminate).
  assert (H3 : pgn g = Some apertura_ruy) by reflexivity.
  assert (H4 : leer_con_error apertura_ruy = LeeExcepcion) by reflexivity.
  split; [exact H1|]. split; [exact H2|]. split; [exact H3|].
  split; [exact H4|].
  destruct (paso_pgn_excepcion leer_con_error dia_demo "user" None 0
              stats_iniciales g apertura_ruy H1 H2 H3) as [HE _].
  destruct (HE H4) as [A _]. exact A.
Defined.

(** The failing input of C2: the only game is won and analyzed, but
    counted under no time control and no weekday. *)
Lemma paso_pgn_excepcion_ejemplo :
  let g := jugada_de "user" "bob" 1500 1400 "win" "checkmated" "600"
             (Some apertura_ruy) in
  let s := agregar leer_con_error dia_demo "user" [g] None 0 in
  ganadas s = 1 /\ partidas_analizadas s = 1 /\
  time_controls s = ∅ /\ juegos_por_dia s = ∅.
Proof. vm_compute. repeat split; reflexivity. Qed.

Lemma filtro_tc_exacto_witness :
  let games := [jugada_de "user" "bob" 1500 1400 "win" "checkmated" "600" None;
                jugada_de "carl" "user" 1500 1400 "win" "resigned" "180" None;
                jugada_de "user" "dan" 1500 1400 "agreed" "agreed" "600" None] in
  "600"%string <> ""%string /\
  partidas_analizadas (agregar leer_demo dia_demo "user" games (Some "600"%string) 0)
  = 2.
Proof.
  intros games.
  assert (Hf : "600"%string <> ""%string) by discriminate.
  split; [exact Hf|].
  destruct (proj1 (filtro_tc_exacto leer_demo dia_demo) "600" Hf)
    as (_ & _ & H & _).
  rewrite (H "user" 0 games).
  - reflexivity.
  - intros g Hin. simpl in Hin.
    destruct Hin as [<- | [<- | [<- | []]]]; vm_compute; discriminate.
Defined.

(** An empty filter string selects nothing: a game labelled "180" is
    analyzed although its label differs from the filter. *)
Lemma filtro_tc_counterexample :
  let g := jugada_de "user" "bob" 1500 1400 "win" "checkmated" "180" None in
  tc_de g <> ""%string /\
  partidas_analizadas (agregar leer_demo dia_demo "user" [g] (Some ""%string) 0)
  = 1.
Proof. split; [discriminate|]. vm_compute. reflexivity. Qed.

Lemma analizar_sin_partidas_witness :
  partidas (nuevo_analizador "alice") = [] /\
  analizar_partidas leer_demo dia_demo (nuevo_analizador "alice") None 0 =
  nuevo_analizador "alice".
Proof.
  assert (H : partidas (nuevo_analizador "alice") = []) by reflexivity.
  split; [exact H|].
  exact (proj1 (analizar_sin_partidas leer_demo dia_demo)
           (nuevo_analizador "alice") None 0 H).
Defined.

(** With no game the analyzer keeps the empty [self.stats] of [__init__]:
    no snapshot, let alone one with [partidas_analizadas = 0]. *)
Lemma analizar_sin_partidas_counterexample :
  ~ (exists s,
       stats_de (analizar_partidas leer_demo dia_demo (nuevo_analizador "alice")
                   None 0) = Some s /\
       partidas_analizadas s = 0).
Proof. intros [s [H _]]. discriminate H. Qed.

Lemma escenario_tres_partidas_witness :
  leer_demo (transcript 20) = LeePartida (repeat "e2e4"%string 20) /\
  leer_demo (transcript 30) = LeePartida (repeat "e2e4"%string 30) /\
  leer_demo (transcript 40) = LeePartida (repeat "e2e4"%string 40) /\
  winrate_global
    (agregar leer_demo dia_demo "user"
       [mkPartida (mkJugador "user" (Some 1450) "win")
          (mkJugador "rival1" (Some 1500) "checkmated")
          (Some "600"%string) None (Some (transcript 20));
        mkPartida (mkJugador "rival2" (Some 1600) "win")
          (mkJugador "user" (Some 1450) "resigned")
          (Some "600"%string) None (Some (transcript 30));
        mkPartida (mkJugador "user" (Some 1450) "agreed")
          (mkJugador "rival3" (Some 1400) "agreed")
          (Some "180"%string) None (Some (transcript 40))] None 0) = 33.
Proof.
  assert (H1 : leer_demo (transcript 20) = LeePartida (repeat "e2e4"%string 20))
    by (vm_compute; reflexivity).
  assert (H2 : leer_demo (transcript 30) = LeePartida (repeat "e2e4"%string 30))
    by (vm_compute; reflexivity).
  assert (H3 : leer_demo (transcript 40) = LeePartida (repeat "e2e4"%string 40))
    by (vm_compute; reflexivity).
  split; [exact H1|]. split; [exact H2|]. split; [exact H3|].
  destruct (escenario_tres_partidas leer_demo dia_demo
              (transcript 20) (transcript 30) (transcript 40) "resigned"
              _ _ _ None None None H1 (repeat_length _ _) H2 (repeat_length _ _)
              H3 (repeat_length _ _) ltac:(simpl; tauto))
    as (_ & _ & _ & _ & W & _).
  exact W.
Defined.

(** ** Concrete runs of the other methods *)

(** The URL of a monthly archive of the account [user]. *)
Definition url_mes (mes : string) : string :=
  "https://api.chess.com/pub/player/user/games/2024/" ++ mes.

(** An archive list with four months, and their games: one game in the
    second month. *)
Definition archivos_demo (u : string) : option (list string) :=
  if String.eqb u "user"
  then Some [url_mes "01"; url_mes "02"; url_mes "03"; url_mes "04"]
  else None.

(** The same archive list with a third entry that holds no ['/']. *)
Definition archivos_sin_barra (u : string) : option (list string) :=
  if String.eqb u "user"
  then Some [url_mes "01"; url_mes "02"; "2024-03"; url_mes "04"]%string
  else None.

Definition juegos_demo (v : string) : list partida :=
  if String.eqb v (url_mes "02")
  then [jugada_de "user" "bob" 1500 1400 "win" "checkmated" "600" None]
  else [].

Definition mes_demo (v : string) : option (list partida) := Some (juegos_demo v).

(** The third month fails to download. *)
Definition mes_con_falla (v : string) : option (list partida) :=
  if String.eqb v (url_mes "03") then None else Some (juegos_demo v).

(** Every month downloads and holds no game. *)
Definition mes_vacio (_ : string) : option (list partida) := Some [].

Lemma histograma_sin_datos_witness :
  (forall t, ~ In (dia_demo t) nombres_dias) /\
  histograma_dias (fun _ _ => O)
    (Some (agregar leer_demo dia_demo "user"
             [jugada_de "user" "bob" 1500 1400 "win" "checkmated" "600" None]
             None 0)) = HistSinDatos.
Proof.
  assert (Hd : forall t, ~ In (dia_demo t) nombres_dias).
  { intros t. unfold dia_demo. generalize (Z.to_nat ((t / 86400 + 3) mod 7)).
    intros k. unfold nombres_dias.
    destruct k as [|[|[|[|[|[|[|k]]]]]]]; [..|destruct k];
      simpl; intuition discriminate. }
  split; [exact Hd|].
  apply (histograma_sin_datos leer_demo dia_demo). exact Hd.
Defined.




Lemma obtener_partidas_exito_witness :
  let a := mkAnalizador "user" [] None in
  let l := [url_mes "01"; url_mes "02"; url_mes "03"; url_mes "04"] in
  archivos_demo (user a) = Some l /\
  (forall v, In v (rebanada_desde (- 3) l) ->
     tiene_barra v = true /\ mes_demo v = Some (juegos_demo v)) /\
  obtener_partidas archivos_demo mes_demo a 3 =
  Obtenidas true
    (mkAnalizador (user a)
       (partidas a ++ concat (map juegos_demo (rebanada_desde (- 3) l)))
       (stats_de a)).
Proof.
  intros a l.
  assert (H1 : archivos_demo (user a) = Some l) by reflexivity.
  assert (H2 : forall v, In v (rebanada_desde (- 3) l) ->
                 tiene_barra v = true /\ mes_demo v = Some (juegos_demo v)).
  { intros v Hv. vm_compute in Hv.
    destruct Hv as [<- | [<- | [<- | []]]]; split; reflexivity. }
  split; [exact H1|]. split; [exact H2|].
  apply (obtener_partidas_exito archivos_demo mes_demo a 3 _ juegos_demo H1 H2).
Defined.

Lemma obtener_partidas_falla_witness :
  let a := mkAnalizador "user" [] None in
  let l := [url_mes "01"; url_mes "02"; url_mes "03"; url_mes "04"] in
  archivos_demo (user a) = Some l /\
  rebanada_desde (- 0) l = [url_mes "01"; url_mes "02"] ++ url_mes "03" :: [url_mes "04"] /\
  (forall v, In v [url_mes "01"; url_mes "02"] ->
     tiene_barra v = true /\ mes_con_falla v = Some (juegos_demo v)) /\
  tiene_barra (url_mes "03") = true /\
  mes_con_falla (url_mes "03") = None /\
  obtener_partidas archivos_demo mes_con_falla a 0 =
  Obtenidas false
    (mkAnalizador (user a)
       (partidas a ++ concat (map juegos_demo [url_mes "01"; url_mes "02"])) (stats_de a)).
Proof.
  intros a l.
  assert (H1 : archivos_demo (user a) = Some l) by reflexivity.
  assert (H2 : rebanada_desde (- 0) l =
               [url_mes "01"; url_mes "02"] ++ url_mes "03" :: [url_mes "04"])
    by reflexivity.
  assert (H3 : forall v, In v [url_mes "01"; url_mes "02"] ->
                 tiene_barra v = true /\ mes_con_falla v = Some (juegos_demo v))
    by (intros v [<-|[<-|[]]]; split; reflexivity).
  assert (H4 : tiene_barra (url_mes "03") = true) by reflexivity.
  assert (H5 : mes_con_falla (url_mes "03") = None) by reflexivity.
  split; [exact H1|]. split; [exact H2|]. split; [exact H3|].
  split; [exact H4|]. split; [exact H5|].
  apply (obtener_partidas_falla archivos_demo mes_con_falla a 0 _ juegos_demo
           _ _ _ H1 H2 H3 H4 H5).
Defined.

Lemma obtener_partidas_sin_barra_witness :
  let a := mkAnalizador "user" [] None in
  let l := [url_mes "01"; url_mes "02"; "2024-03"; url_mes "04"]%string in
  archivos_sin_barra (user a) = Some l /\
  rebanada_desde (- 0) l = [url_mes "01"; url_mes "02"] ++ "2024-03"%string :: [url_mes "04"] /\
  (forall v, In v [url_mes "01"; url_mes "02"] ->
     tiene_barra v = true /\ mes_demo v = Some (juegos_demo v)) /\
  tiene_barra "2024-03" = false /\
  obtener_partidas archivos_sin_barra mes_demo a 0 =
  ErrorIndice
    (mkAnalizador (user a)
       (partidas a ++ concat (map juegos_demo [url_mes "01"; url_mes "02"])) (stats_de a)).
Proof.
  intros a l.
  assert (H1 : archivos_sin_barra (user a) = Some l) by reflexivity.
  assert (H2 : rebanada_desde (- 0) l =
               [url_mes "01"; url_mes "02"] ++ "2024-03"%string :: [url_mes "04"])
    by reflexivity.
  assert (H3 : forall v, In v [url_mes "01"; url_mes "02"] ->
                 tiene_barra v = true /\ mes_demo v = Some (juegos_demo v))
    by (intros v [<-|[<-|[]]]; split; reflexivity).
  assert (H4 : tiene_barra "2024-03" = false) by reflexivity.
  split; [exact H1|]. split; [exact H2|]. split; [exact H3|]. split; [exact H4|].
  apply (obtener_partidas_sin_barra archivos_sin_barra mes_demo a 0 _ juegos_demo
           _ _ _ H1 H2 H3 H4).
Defined.

Lemma script_sin_partidas_witness :
  let l := [url_mes "01"; url_mes "02"; url_mes "03"; url_mes "04"] in
  archivos_demo (lower "User") = Some l /\
  (forall v, In v (rebanada_desde (-1) l) ->
     tiene_barra v = true /\ mes_vacio v = Some []) /\
  script leer_demo dia_demo archivos_demo mes_vacio (fun _ _ => O) "User" =
  FallaHistograma false.
Proof.
  intros l.
  assert (H1 : archivos_demo (lower "User") = Some l) by reflexivity.
  assert (H2 : forall v, In v (rebanada_desde (-1) l) ->
                 tiene_barra v = true /\ mes_vacio v = Some []).
  { intros v Hv. vm_compute in Hv. destruct Hv as [<- | []]. split; reflexivity. }
  split; [exact H1|]. split; [exact H2|].
  apply (script_sin_partidas archivos_demo mes_vacio leer_demo dia_demo
           (fun _ _ => O) "User" _ H1 H2).
Defined.
